(** * android_view_ThreadedRenderer: the JNI glue of the threaded renderer

    A shallow embedding of [core/jni/android_view_ThreadedRenderer.cpp].
    The native functions of the file are straight-line code over three
    collaborators: the JNI environment (references, strings, arrays, the
    Java VM), the native heap ([new], [make_shared]) and libhwui's
    [RenderProxy].  Each of them is a component of the [World] the functions
    run in; every call that leaves the file is recorded in the world's trace
    with its arguments, so that properties such as "released exactly once"
    are statements about that trace. *)

From Stdlib Require Import ZArith String List Lia.
From Stdlib Require Import Ascii.
From stdpp Require Import base option numbers list strings gmap sets.

Local Open Scope Z_scope.

(** ** JNI values *)

Module Jni.

Definition JNI_OK : Z := 0.
Definition JNI_ERR : Z := -1.
Definition JNI_EDETACHED : Z := -2.
Definition JNI_EVERSION : Z := -3.

Definition JNI_VERSION_1_4 : Z := 0x00010004.
Definition JNI_VERSION_1_6 : Z := 0x00010006.

(** The Java VM of the process; a [JavaVM*] is [Some TheVM], or [None] when
    it is null or was never written. *)
Inductive JavaVM : Set := TheVM.

(** The [JNIEnv*] of the running thread. *)
Inductive JNIEnv : Set := TheEnv.

(** A reference to a Java object [o]: local to the native call, or a global
    reference held in slot [slot] of the VM's table. *)
Inductive jref : Set :=
| LocalRef (o : positive)
| GlobalRef (slot : positive) (o : positive).

(** [jobject]: [None] is [nullptr]. *)
Definition jobject : Set := option jref.

Definition referent (r : jref) : positive :=
  match r with
  | LocalRef o => o
  | GlobalRef _ o => o
  end.

(** A [jstring]: a reference to the [java.lang.String] object [str_obj]. *)
Record jstring : Set := mk_jstring { str_obj : positive; str_value : string }.

(** A [jlongArray]: the Java [long[]] it refers to. *)
Definition jlongArray : Set := list Z.

(** Method ids cached by [register_android_view_ThreadedRenderer]. *)
Inductive jmethodID : Set :=
| invokePictureCapturedCallback
| onFrameDraw
| onFrameComplete.

#[global] Instance JavaVM_eq_dec : EqDecision JavaVM.
Proof. solve_decision. Defined.
#[global] Instance jref_eq_dec : EqDecision jref.
Proof. solve_decision. Defined.
#[global] Instance jstring_eq_dec : EqDecision jstring.
Proof. solve_decision. Defined.
#[global] Instance jmethodID_eq_dec : EqDecision jmethodID.
Proof. solve_decision. Defined.

End Jni.
Export Jni.

(** ** Graphics values (gui, hwui, Skia) *)

Module Gfx.

Definition OK : Z := 0.

Definition to_uint32 (z : Z) : Z := z mod 2 ^ 32.

Record GraphicBuffer : Set := mk_GraphicBuffer {
  getWidth : Z;
  getHeight : Z;
  getPixelFormat : Z
}.

(** [mGraphicBuffer] is an [sp<GraphicBuffer>]: [None] is the null pointer. *)
Record BufferItem : Set := mk_BufferItem {
  mGraphicBuffer : option GraphicBuffer;
  mDataSpace : Z
}.

Inductive SkColorSpace : Set :=
| MakeSRGB
| ColorSpace (tag : Z).

(** What [Bitmap::createFrom(buffer, ct, cs)] is built from; [bm_colorSpace]
    is an [sk_sp<SkColorSpace>], [None] being the null pointer. *)
Record Bitmap : Set := mk_Bitmap {
  bm_buffer : GraphicBuffer;
  bm_colorType : Z;
  bm_colorSpace : option SkColorSpace
}.

Inductive BitmapCreateFlag : Set :=
| kBitmapCreateFlag_None
| kBitmapCreateFlag_Mutable
| kBitmapCreateFlag_Premultiplied.

(** The [android.graphics.Bitmap] made by [bitmap::createBitmap]. *)
Record JavaBitmap : Set := mk_JavaBitmap {
  jb_native : Bitmap;
  jb_flags : BitmapCreateFlag
}.

Inductive SwapBehavior : Set := kSwap_default | kSwap_discardBuffer.

Inductive GrallocUsage : Set :=
| GRALLOC_USAGE_HW_TEXTURE
| GRALLOC_USAGE_SW_READ_NEVER
| GRALLOC_USAGE_SW_WRITE_NEVER.

Inductive FrameInfoFlags : Set := SurfaceCanvas.

End Gfx.
Export Gfx.

(** ** The world the native functions run in *)

(** Objects of this file that live on the native heap. *)
Inductive native_obj : Set :=
| FrameCompleteWrapper_obj (mVm : option JavaVM) (mObject : jobject)
| JGlobalRefHolder_obj (mVm : option JavaVM) (mObject : jobject)
| FrameMetricsObserverProxy_obj (vm : option JavaVM) (fso : jobject)
| Picture_obj (picture : Z)
| UTFChars_obj (origin : jstring).

(** The part of a [RenderProxy] this file reads or writes: the frame-info
    buffer returned by [frameInfo()], and the registered frame-metrics
    observers (the values of the [FrameMetricsObserver*] pointers). *)
Record RenderProxy : Type := mk_RenderProxy {
  mFrameInfo : list Z;
  mFrameMetricsObservers : gset Z
}.

(** Calls forwarded to a [RenderProxy] whose effect is not visible in this
    file.  A callback is the lambda handed over; each lambda captures one
    pointer, to a [JGlobalRefHolder] or to a [FrameCompleteWrapper]. *)
Inductive proxy_call : Set :=
| Proxy_setPictureCapturedCallback (globalCallbackRef : option positive)
| Proxy_setFrameCallback (globalCallbackRef : option positive)
| Proxy_setFrameCompleteCallback (wrapper : option positive).

Module Ev.
(** One entry per call that leaves the file. *)
Inductive event : Set :=
| ALOGW (fmt : string) (args : list Z)
| GetStringUTFChars (s : jstring) (chars : positive)
| ReleaseStringUTFChars (s : jstring) (chars : positive)
| NewGlobalRef (obj : jref) (ref : jobject)
| DeleteGlobalRef (ref : jobject)
| CallVoidMethod (obj : jobject) (method : jmethodID) (arg : Z)
| CallStaticVoidMethod (method : jmethodID) (arg : positive) (obj : jobject)
| AttachCurrentThreadAsDaemon (version : Z) (name : string)
| overrideProperty (name value : positive)
| egl_set_cache_filename (filename : positive)
| ShaderCache_setFilename (filename : positive)
| Proxy (proxyPtr : Z) (call : proxy_call)
| createBufferQueue
| setMaxBufferCount (n : Z)
| new_BufferItemConsumer (usage : list GrallocUsage)
| setDefaultBufferSize (width height : Z)
| new_Surface
| new_RenderProxy (translucent : bool) (rootRenderNode : Z)
| setSwapBehavior (b : SwapBehavior)
| setSurface
| setLightAlpha (ambient spot : Z)
| setLightGeometry (x y z radius : Z)
| setVsync (vsync intended : Z)
| addFlag (f : FrameInfoFlags)
| syncAndDrawFrame
| delete_RenderProxy
| acquireBuffer (err : Z)
| releaseBuffer.
End Ev.
Export Ev (event).

#[projections(primitive)]
Record World : Type := mk_World {
  (** status [JavaVM::GetEnv] answers on the running thread *)
  w_GetEnv : Z;
  (** status [JNIEnv::GetJavaVM] answers *)
  w_GetJavaVM : Z;
  (** global references the VM can still hand out *)
  w_global_room : nat;
  (** slot of the next global reference *)
  w_next_global : positive;
  (** pending Java exception, if any *)
  w_exception : option string;
  (** next free address of the native heap, and the live objects *)
  w_brk : positive;
  w_heap : gmap positive native_obj;
  (** the live [RenderProxy] objects, by address *)
  w_proxies : gmap Z RenderProxy;
  (** [static JavaVM* mJvm] *)
  w_mJvm : option JavaVM;
  (** [systemTime(SYSTEM_TIME_MONOTONIC)] *)
  w_systemTime : Z;
  (** what the consumer's [acquireBuffer] yields once the frame is drawn *)
  w_acquireBuffer : Z * BufferItem;
  (** calls made so far, oldest first *)
  w_trace : list event
}.

Definition set_global_room (n : nat) (w : World) : World :=
  mk_World (w_GetEnv w) (w_GetJavaVM w) n (w_next_global w) (w_exception w)
           (w_brk w) (w_heap w) (w_proxies w) (w_mJvm w) (w_systemTime w)
           (w_acquireBuffer w) (w_trace w).

Definition set_next_global (p : positive) (w : World) : World :=
  mk_World (w_GetEnv w) (w_GetJavaVM w) (w_global_room w) p (w_exception w)
           (w_brk w) (w_heap w) (w_proxies w) (w_mJvm w) (w_systemTime w)
           (w_acquireBuffer w) (w_trace w).

Definition set_exception (e : option string) (w : World) : World :=
  mk_World (w_GetEnv w) (w_GetJavaVM w) (w_global_room w) (w_next_global w) e
           (w_brk w) (w_heap w) (w_proxies w) (w_mJvm w) (w_systemTime w)
           (w_acquireBuffer w) (w_trace w).

Definition set_brk (p : positive) (w : World) : World :=
  mk_World (w_GetEnv w) (w_GetJavaVM w) (w_global_room w) (w_next_global w)
           (w_exception w) p (w_heap w) (w_proxies w) (w_mJvm w)
           (w_systemTime w) (w_acquireBuffer w) (w_trace w).

Definition set_heap (h : gmap positive native_obj) (w : World) : World :=
  mk_World (w_GetEnv w) (w_GetJavaVM w) (w_global_room w) (w_next_global w)
           (w_exception w) (w_brk w) h (w_proxies w) (w_mJvm w)
           (w_systemTime w) (w_acquireBuffer w) (w_trace w).

Definition set_proxies (ps : gmap Z RenderProxy) (w : World) : World :=
  mk_World (w_GetEnv w) (w_GetJavaVM w) (w_global_room w) (w_next_global w)
           (w_exception w) (w_brk w) (w_heap w) ps (w_mJvm w)
           (w_systemTime w) (w_acquireBuffer w) (w_trace w).

Definition set_trace (t : list event) (w : World) : World :=
  mk_World (w_GetEnv w) (w_GetJavaVM w) (w_global_room w) (w_next_global w)
           (w_exception w) (w_brk w) (w_heap w) (w_proxies w) (w_mJvm w)
           (w_systemTime w) (w_acquireBuffer w) t.

(** ** Running native code *)

(** A call returns a value, or ends the process in [LOG_ALWAYS_FATAL], or
    dereferences a pointer that designates no live object of the expected
    class. *)
Inductive outcome (A : Type) : Type :=
| Returned (a : A) (w : World)
| Fatal (msg : string) (w : World)
| Undefined (w : World).
Arguments Returned {A} a w.
Arguments Fatal {A} msg w.
Arguments Undefined {A} w.

Definition M (A : Type) : Type := World → outcome A.

#[global] Instance M_ret : MRet M := λ A a w, Returned a w.

#[global] Instance M_bind : MBind M := λ A B f c w,
  match c w with
  | Returned a w' => f a w'
  | Fatal msg w' => Fatal msg w'
  | Undefined w' => Undefined w'
  end.

Definition gets {A} (f : World → A) : M A := λ w, Returned (f w) w.

Definition modify (f : World → World) : M unit := λ w, Returned () (f w).

Definition emit (e : event) : M unit :=
  modify (λ w, set_trace (w_trace w ++ [e]) w).

Definition LOG_ALWAYS_FATAL {A} (msg : string) : M A := λ w, Fatal msg w.

Definition LOG_ALWAYS_FATAL_IF (cond : bool) (msg : string) : M unit :=
  if cond then LOG_ALWAYS_FATAL msg else mret ().

Definition undefined {A} : M A := λ w, Undefined w.

Definition is_fatal {A} (o : outcome A) : Prop :=
  match o with Fatal _ _ => True | _ => False end.

Definition world_of {A} (o : outcome A) : World :=
  match o with
  | Returned _ w | Fatal _ w | Undefined w => w
  end.

(** The events a run appended to the trace it started from. *)
Definition emitted (w w' : World) : list event :=
  drop (length (w_trace w)) (w_trace w').

(** ** The native heap *)

Definition new (o : native_obj) : M positive := λ w,
  let a := w_brk w in
  Returned a (set_heap (<[a := o]> (w_heap w)) (set_brk (a + 1)%positive w)).

Definition load (a : positive) : M native_obj := λ w,
  match w_heap w !! a with
  | Some o => Returned o w
  | None => Undefined w
  end.

Definition store (a : positive) (o : native_obj) : M unit :=
  modify (λ w, set_heap (<[a := o]> (w_heap w)) w).

Definition free (a : positive) : M unit :=
  modify (λ w, set_heap (delete a (w_heap w)) w).

(** [reinterpret_cast<RenderProxy*>(proxyPtr)] followed by [proxy->]. *)
Definition deref_proxy (proxyPtr : Z) : M RenderProxy := λ w,
  match w_proxies w !! proxyPtr with
  | Some p => Returned p w
  | None => Undefined w
  end.

Definition write_proxy (proxyPtr : Z) (p : RenderProxy) : M unit :=
  modify (λ w, set_proxies (<[proxyPtr := p]> (w_proxies w)) w).

(** A call on the proxy that this file only forwards. *)
Definition proxy_forward (proxyPtr : Z) (call : proxy_call) : M unit :=
  _ ← deref_proxy proxyPtr;
  emit (Ev.Proxy proxyPtr call).

(** ** The JNI functions the file calls *)

(** [vm->GetEnv(&env, version)]: the status; [env] is the environment of the
    running thread when the status is [JNI_OK]. *)
Definition GetEnv (version : Z) : M Z := gets w_GetEnv.

(** [env->GetJavaVM(&vm)]: the status and the new content of [vm], which is
    written on success only. *)
Definition GetJavaVM (vm : option JavaVM) : M (Z * option JavaVM) :=
  status ← gets w_GetJavaVM;
  mret (status, if bool_decide (status = JNI_OK) then Some TheVM else vm).

(** [env->NewGlobalRef(obj)]: null for a null [obj] and when the VM has no
    room left. *)
Definition NewGlobalRef (obj : jobject) : M jobject :=
  match obj with
  | None => mret None
  | Some r =>
      room ← gets w_global_room;
      match room with
      | O => emit (Ev.NewGlobalRef r None);; mret None
      | S room' =>
          slot ← gets w_next_global;
          modify (set_global_room room');;
          modify (set_next_global (slot + 1)%positive);;
          emit (Ev.NewGlobalRef r (Some (GlobalRef slot (referent r))));;
          mret (Some (GlobalRef slot (referent r)))
      end
  end.

(** [env->DeleteGlobalRef(ref)]: deleting null does nothing. *)
Definition DeleteGlobalRef (ref : jobject) : M unit :=
  emit (Ev.DeleteGlobalRef ref);;
  match ref with
  | None => mret ()
  | Some _ => room ← gets w_global_room; modify (set_global_room (S room))
  end.

Definition CallVoidMethod (obj : jobject) (method : jmethodID) (arg : Z) : M unit :=
  emit (Ev.CallVoidMethod obj method arg).

Definition CallStaticVoidMethod (method : jmethodID) (arg : positive) (obj : jobject)
  : M unit :=
  emit (Ev.CallStaticVoidMethod method arg obj).

(** [env->GetStringUTFChars(s, NULL)]: a fresh native buffer holding the
    characters of [s]. *)
Definition GetStringUTFChars (s : jstring) : M positive :=
  chars ← new (UTFChars_obj s);
  emit (Ev.GetStringUTFChars s chars);;
  mret chars.

(** [env->ReleaseStringUTFChars(s, chars)]: frees the buffer [chars]. *)
Definition ReleaseStringUTFChars (s : jstring) (chars : positive) : M unit :=
  o ← load chars;
  match o with
  | UTFChars_obj _ => emit (Ev.ReleaseStringUTFChars s chars);; free chars
  | _ => undefined
  end.

(** [env->GetLongArrayRegion(array, start, len, buf)]: the new content of
    [buf].  A region that is not inside the array raises
    [ArrayIndexOutOfBoundsException] and leaves [buf] as it is. *)
Definition GetLongArrayRegion (array : jlongArray) (start len : Z) (buf : list Z)
  : M (list Z) :=
  if bool_decide (start < 0 ∨ len < 0 ∨ Z.of_nat (length array) - len < start)
  then
    modify (set_exception (Some "java/lang/ArrayIndexOutOfBoundsException"%string));;
    mret buf
  else
    mret (take (Z.to_nat len) (drop (Z.to_nat start) array)
            ++ drop (Z.to_nat len) buf).

(** ** libhwui, as far as this file depends on it *)

(** The parts of libhwui that the functions below use and that are declared
    elsewhere: the size of the frame-info record, the body of
    [RenderProxy::syncAndDrawFrame], and the two conversions of
    [utils/Color.h]. *)
Class Libhwui : Type := {
  UI_THREAD_FRAME_INFO_SIZE : Z;
  DrawFrameTask_drawFrame : RenderProxy → Z * RenderProxy;
  PixelFormatToColorType : Z → Z;
  DataSpaceToColorSpace : Z → option SkColorSpace
}.

(** [proxy->syncAndDrawFrame()] *)
Definition RenderProxy_syncAndDrawFrame `{Libhwui} (proxyPtr : Z) : M Z :=
  proxy ← deref_proxy proxyPtr;
  write_proxy proxyPtr (DrawFrameTask_drawFrame proxy).2;;
  mret (DrawFrameTask_drawFrame proxy).1.

(** Modelled from the spec: [RenderProxy::addFrameMetricsObserver] is not in
    this file.  The registered observers form a set with no duplicate
    registration of the same observer. *)
Definition RenderProxy_addFrameMetricsObserver (proxyPtr : Z) (observer : Z)
  : M unit :=
  proxy ← deref_proxy proxyPtr;
  write_proxy proxyPtr
    (mk_RenderProxy (mFrameInfo proxy) ({[observer]} ∪ mFrameMetricsObservers proxy)).

(** Modelled from the spec: [RenderProxy::removeFrameMetricsObserver] is not
    in this file.  Removing an observer that is not registered is a no-op,
    not an error. *)
Definition RenderProxy_removeFrameMetricsObserver (proxyPtr : Z) (observer : Z)
  : M unit :=
  proxy ← deref_proxy proxyPtr;
  write_proxy proxyPtr
    (mk_RenderProxy (mFrameInfo proxy) (mFrameMetricsObservers proxy ∖ {[observer]})).

(** ** android_view_ThreadedRenderer.cpp *)

Definition getenv (vm : option JavaVM) : M JNIEnv :=
  match vm with
  | None => undefined
  | Some _ =>
      status ← GetEnv JNI_VERSION_1_6;
      if bool_decide (status ≠ JNI_OK)
      then LOG_ALWAYS_FATAL "Failed to get JNIEnv for JavaVM: %p"
      else mret TheEnv
  end.

(** *** class FrameCompleteWrapper *)

Definition FrameCompleteWrapper_ctor (jobj : jobject) : M native_obj :=
  r ← GetJavaVM None;
  mObject ← NewGlobalRef jobj;
  LOG_ALWAYS_FATAL_IF (bool_decide (mObject = None)) "Failed to make global ref";;
  mret (FrameCompleteWrapper_obj r.2 mObject).

Definition new_FrameCompleteWrapper (jobj : jobject) : M positive :=
  o ← FrameCompleteWrapper_ctor jobj;
  new o.

Definition FrameCompleteWrapper_releaseObject (this : positive) : M unit :=
  o ← load this;
  match o with
  | FrameCompleteWrapper_obj mVm mObject =>
      match mObject with
      | Some _ =>
          _ ← getenv mVm;
          DeleteGlobalRef mObject;;
          store this (FrameCompleteWrapper_obj mVm None)
      | None => mret ()
      end
  | _ => undefined
  end.

Definition FrameCompleteWrapper_onFrameComplete (this : positive) (frameNr : Z)
  : M unit :=
  o ← load this;
  match o with
  | FrameCompleteWrapper_obj mVm mObject =>
      match mObject with
      | Some _ =>
          (* ATRACE_FORMAT("frameComplete %" PRId64, frameNr) *)
          _ ← getenv mVm;
          CallVoidMethod mObject onFrameComplete frameNr;;
          FrameCompleteWrapper_releaseObject this
      | None => mret ()
      end
  | _ => undefined
  end.

Definition FrameCompleteWrapper_dtor (this : positive) : M unit :=
  FrameCompleteWrapper_releaseObject this.

(** The last [sp<FrameCompleteWrapper>] goes away. *)
Definition delete_FrameCompleteWrapper (this : positive) : M unit :=
  FrameCompleteWrapper_dtor this;;
  free this.

(** *** class JGlobalRefHolder *)

Definition JGlobalRefHolder_dtor (this : positive) : M unit :=
  o ← load this;
  match o with
  | JGlobalRefHolder_obj mVm mObject =>
      _ ← getenv mVm;
      DeleteGlobalRef mObject;;
      store this (JGlobalRefHolder_obj mVm None)
  | _ => undefined
  end.

(** The last [shared_ptr<JGlobalRefHolder>] goes away. *)
Definition delete_JGlobalRefHolder (this : positive) : M unit :=
  JGlobalRefHolder_dtor this;;
  free this.

(** *** nSyncAndDrawFrame *)

Definition android_view_ThreadedRenderer_syncAndDrawFrame `{Libhwui}
    (proxyPtr : Z) (frameInfo : jlongArray) (frameInfoSize : Z) : M Z :=
  LOG_ALWAYS_FATAL_IF (bool_decide (frameInfoSize ≠ UI_THREAD_FRAME_INFO_SIZE))
    "Mismatched size expectations, given %d expected %d";;
  proxy ← deref_proxy proxyPtr;
  buf ← GetLongArrayRegion frameInfo 0 frameInfoSize (mFrameInfo proxy);
  write_proxy proxyPtr (mk_RenderProxy buf (mFrameMetricsObservers proxy));;
  RenderProxy_syncAndDrawFrame proxyPtr.

(** *** nOverrideProperty, setupShadersDiskCache *)

Definition android_view_ThreadedRenderer_overrideProperty (name value : jstring)
  : M unit :=
  nameCharArray ← GetStringUTFChars name;
  valueCharArray ← GetStringUTFChars value;
  emit (Ev.overrideProperty nameCharArray valueCharArray);;
  ReleaseStringUTFChars name nameCharArray;;
  ReleaseStringUTFChars name valueCharArray.

Definition android_view_ThreadedRenderer_setupShadersDiskCache
    (diskCachePath skiaDiskCachePath : jstring) : M unit :=
  cacheArray ← GetStringUTFChars diskCachePath;
  emit (Ev.egl_set_cache_filename cacheArray);;
  ReleaseStringUTFChars diskCachePath cacheArray;;
  skiaCacheArray ← GetStringUTFChars skiaDiskCachePath;
  emit (Ev.ShaderCache_setFilename skiaCacheArray);;
  ReleaseStringUTFChars skiaDiskCachePath skiaCacheArray.

(** *** nSetPictureCaptureCallback, nSetFrameCallback, nSetFrameCompleteCallback *)

Definition android_view_ThreadedRenderer_setPictureCapturedCallbackJNI
    (proxyPtr : Z) (pictureCallback : jobject) : M unit :=
  match pictureCallback with
  | None => proxy_forward proxyPtr (Proxy_setPictureCapturedCallback None)
  | Some _ =>
      r ← GetJavaVM None;
      LOG_ALWAYS_FATAL_IF (bool_decide (r.1 ≠ JNI_OK)) "Unable to get Java VM";;
      ref ← NewGlobalRef pictureCallback;
      globalCallbackRef ← new (JGlobalRefHolder_obj r.2 ref);
      proxy_forward proxyPtr (Proxy_setPictureCapturedCallback (Some globalCallbackRef))
  end.

(** The lambda given to [setPictureCapturedCallback], called with a picture. *)
Definition PictureCapturedCallback_call (globalCallbackRef : positive) (picture : Z)
  : M unit :=
  o ← load globalCallbackRef;
  match o with
  | JGlobalRefHolder_obj mVm mObject =>
      _ ← getenv mVm;
      wrapper ← new (Picture_obj picture);
      CallStaticVoidMethod invokePictureCapturedCallback wrapper mObject
  | _ => undefined
  end.

Definition android_view_ThreadedRenderer_setFrameCallback
    (proxyPtr : Z) (frameCallback : jobject) : M unit :=
  match frameCallback with
  | None => proxy_forward proxyPtr (Proxy_setFrameCallback None)
  | Some _ =>
      r ← GetJavaVM None;
      LOG_ALWAYS_FATAL_IF (bool_decide (r.1 ≠ JNI_OK)) "Unable to get Java VM";;
      ref ← NewGlobalRef frameCallback;
      globalCallbackRef ← new (JGlobalRefHolder_obj r.2 ref);
      proxy_forward proxyPtr (Proxy_setFrameCallback (Some globalCallbackRef))
  end.

(** The lambda given to [setFrameCallback], called with a frame number. *)
Definition FrameCallback_call (globalCallbackRef : positive) (frameNr : Z) : M unit :=
  o ← load globalCallbackRef;
  match o with
  | JGlobalRefHolder_obj mVm mObject =>
      _ ← getenv mVm;
      CallVoidMethod mObject onFrameDraw frameNr
  | _ => undefined
  end.

Definition android_view_ThreadedRenderer_setFrameCompleteCallback
    (proxyPtr : Z) (callback : jobject) : M unit :=
  match callback with
  | None => proxy_forward proxyPtr (Proxy_setFrameCompleteCallback None)
  | Some _ =>
      wrapper ← new_FrameCompleteWrapper callback;
      proxy_forward proxyPtr (Proxy_setFrameCompleteCallback (Some wrapper))
  end.

(** The lambda given to [setFrameCompleteCallback]. *)
Definition FrameCompleteCallback_call (wrapper : positive) (frameNr : Z) : M unit :=
  FrameCompleteWrapper_onFrameComplete wrapper frameNr.

(** *** nAddFrameMetricsObserver, nRemoveFrameMetricsObserver *)

Definition android_view_ThreadedRenderer_addFrameMetricsObserver
    (proxyPtr : Z) (fso : jobject) : M Z :=
  r ← GetJavaVM None;
  if bool_decide (r.1 ≠ JNI_OK) then
    LOG_ALWAYS_FATAL "Unable to get Java VM" (* never reached: return 0 *)
  else
    observer ← new (FrameMetricsObserverProxy_obj r.2 fso);
    RenderProxy_addFrameMetricsObserver proxyPtr (Z.pos observer);;
    mret (Z.pos observer).

Definition android_view_ThreadedRenderer_removeFrameMetricsObserver
    (proxyPtr : Z) (observerPtr : Z) : M unit :=
  RenderProxy_removeFrameMetricsObserver proxyPtr observerPtr.

(** *** the render thread's start hook *)

Definition attachRenderThreadToJvm (name : string) : M unit :=
  mJvm ← gets w_mJvm;
  LOG_ALWAYS_FATAL_IF (bool_decide (mJvm = None)) "No jvm but we set the hook??";;
  emit (Ev.AttachCurrentThreadAsDaemon JNI_VERSION_1_4 name).

(** *** nCreateHardwareBitmap *)

Definition systemTime : M Z := gets w_systemTime.

(** [consumer->acquireBuffer(&bufferItem, 0, true)] *)
Definition acquireBuffer : M (Z * BufferItem) :=
  r ← gets w_acquireBuffer;
  emit (Ev.acquireBuffer r.1);;
  mret r.

(** [Bitmap::createFrom(buffer, ct, cs)], declared in hwui/Bitmap.h: a
    bitmap is represented by what it is made from. *)
Definition Bitmap_createFrom (buffer : GraphicBuffer) (ct : Z)
    (cs : option SkColorSpace) : Bitmap :=
  mk_Bitmap buffer ct cs.

(** [bitmap::createBitmap(env, bitmap, flags)], declared in GraphicsJNI.h:
    the [android.graphics.Bitmap] made for [bitmap]. *)
Definition createBitmap (bitmap : Bitmap) (flags : BitmapCreateFlag)
  : option JavaBitmap :=
  Some (mk_JavaBitmap bitmap flags).

Definition android_view_ThreadedRenderer_createHardwareBitmapFromRenderNode
    `{Libhwui} (renderNodePtr : Z) (jwidth jheight : Z) : M (option JavaBitmap) :=
  if bool_decide (jwidth ≤ 0 ∨ jheight ≤ 0) then
    emit (Ev.ALOGW "Invalid width %d or height %d" [jwidth; jheight]);;
    mret None
  else
    let width := to_uint32 jwidth in
    let height := to_uint32 jheight in
    (* Create a Surface wired up to a BufferItemConsumer *)
    emit Ev.createBufferQueue;;
    emit (Ev.setMaxBufferCount 2);;
    emit (Ev.new_BufferItemConsumer
            [GRALLOC_USAGE_HW_TEXTURE; GRALLOC_USAGE_SW_READ_NEVER;
             GRALLOC_USAGE_SW_WRITE_NEVER]);;
    emit (Ev.setDefaultBufferSize width height);;
    emit Ev.new_Surface;;
    (* Render into the surface *)
    emit (Ev.new_RenderProxy true renderNodePtr);;
    emit (Ev.setSwapBehavior kSwap_discardBuffer);;
    emit Ev.setSurface;;
    emit (Ev.setLightAlpha 0 0);;
    emit (Ev.setLightGeometry 0 0 0 0);;
    vsync ← systemTime;
    emit (Ev.setVsync vsync vsync);;
    emit (Ev.addFlag SurfaceCanvas);;
    emit Ev.syncAndDrawFrame;;
    emit Ev.delete_RenderProxy;;
    (* Yank out the GraphicBuffer *)
    r ← acquireBuffer;
    if bool_decide (r.1 ≠ OK) then
      emit (Ev.ALOGW "Failed to acquireBuffer, error %d (%s)" [r.1]);;
      mret None
    else
      let bufferItem := r.2 in
      emit Ev.releaseBuffer;;
      match mGraphicBuffer bufferItem with
      | None =>
          emit (Ev.ALOGW "GraphicBuffer is null?" []);;
          mret None
      | Some buffer =>
          (if bool_decide (getWidth buffer ≠ width ∨ getHeight buffer ≠ height)
           then emit (Ev.ALOGW "GraphicBuffer size mismatch, got %dx%d expected %dx%d"
                        [getWidth buffer; getHeight buffer; width; height])
                (* Continue I guess? *)
           else mret ());;
          let ct := PixelFormatToColorType (getPixelFormat buffer) in
          let cs := DataSpaceToColorSpace (mDataSpace bufferItem) in
          let cs := match cs with
                    | None => Some MakeSRGB
                    | Some c => Some c
                    end in
          let bitmap := Bitmap_createFrom buffer ct cs in
          mret (createBitmap bitmap kBitmapCreateFlag_Premultiplied)
      end.

(** ** Life of a callback *)

(** The calls [f x1], [f x2], ... one after the other. *)
Fixpoint for_each {A} (f : A → M unit) (xs : list A) : M unit :=
  match xs with
  | [] => mret ()
  | x :: xs' => f x;; for_each f xs'
  end.

(** The three callbacks that are set through a lambda. *)
Inductive callback_kind : Set := PictureCaptured | FrameDrawing | FrameComplete.

Definition set_callback (k : callback_kind) : Z → jobject → M unit :=
  match k with
  | PictureCaptured => android_view_ThreadedRenderer_setPictureCapturedCallbackJNI
  | FrameDrawing => android_view_ThreadedRenderer_setFrameCallback
  | FrameComplete => android_view_ThreadedRenderer_setFrameCompleteCallback
  end.

(** What the proxy is handed: the lambda that captured [a], or [nullptr]. *)
Definition forwarded (k : callback_kind) (a : option positive) : proxy_call :=
  match k with
  | PictureCaptured => Proxy_setPictureCapturedCallback a
  | FrameDrawing => Proxy_setFrameCallback a
  | FrameComplete => Proxy_setFrameCompleteCallback a
  end.

(** The lambda that captured [a] is called with [x]. *)
Definition callback_call (k : callback_kind) (a : positive) (x : Z) : M unit :=
  match k with
  | PictureCaptured => PictureCapturedCallback_call a x
  | FrameDrawing => FrameCallback_call a x
  | FrameComplete => FrameCompleteCallback_call a x
  end.

(** The lambda that captured [a] is destroyed, and with it the wrapper at
    [a], of which it was the only owner. *)
Definition callback_destroy (k : callback_kind) (a : positive) : M unit :=
  match k with
  | PictureCaptured | FrameDrawing => delete_JGlobalRefHolder a
  | FrameComplete => delete_FrameCompleteWrapper a
  end.

(** A [FrameCompleteWrapper] receives [onFrameComplete] for each of [frames]
    and is then destroyed. *)
Definition FrameCompleteWrapper_life (this : positive) (frames : list Z) : M unit :=
  for_each (FrameCompleteWrapper_onFrameComplete this) frames;;
  delete_FrameCompleteWrapper this.

(** The object a lambda of kind [k] captured. *)
Definition wrapper_obj (k : callback_kind) (mVm : option JavaVM) (mObject : jobject)
  : native_obj :=
  match k with
  | PictureCaptured | FrameDrawing => JGlobalRefHolder_obj mVm mObject
  | FrameComplete => FrameCompleteWrapper_obj mVm mObject
  end.

(** The Java calls that the lambda of kind [k] makes for [xs] through the
    reference [ref]; a captured picture is wrapped in a new [Picture], at
    [brk] for the first one. *)
Fixpoint calls_made (k : callback_kind) (ref : jobject) (brk : positive)
    (xs : list Z) : list event :=
  match xs with
  | [] => []
  | x :: xs' =>
      match k with
      | PictureCaptured =>
          Ev.CallStaticVoidMethod invokePictureCapturedCallback brk ref
            :: calls_made k ref (brk + 1)%positive xs'
      | FrameDrawing =>
          Ev.CallVoidMethod ref onFrameDraw x :: calls_made k ref brk xs'
      | FrameComplete =>
          [Ev.CallVoidMethod ref onFrameComplete x; Ev.DeleteGlobalRef ref]
      end
  end.

(** What destroying the lambda releases after the calls for [xs]. *)
Definition released_at_destruction (k : callback_kind) (ref : jobject)
    (xs : list Z) : list event :=
  match k, xs with
  | FrameComplete, _ :: _ => []
  | _, _ => [Ev.DeleteGlobalRef ref]
  end.

(** How often [p] holds of the events of a trace. *)
Definition count (p : event → bool) (t : list event) : nat :=
  length (List.filter p t).

Definition is_DeleteGlobalRef (ref : jobject) (e : event) : bool :=
  match e with
  | Ev.DeleteGlobalRef r => bool_decide (r = ref)
  | _ => false
  end.

Definition is_NewGlobalRef (e : event) : bool :=
  match e with
  | Ev.NewGlobalRef _ _ => true
  | _ => false
  end.

Definition is_call (e : event) : bool :=
  match e with
  | Ev.CallVoidMethod _ _ _ | Ev.CallStaticVoidMethod _ _ _ => true
  | _ => false
  end.

(** Events that make a buffer queue, a surface or a proxy. *)
Definition is_creation (e : event) : bool :=
  match e with
  | Ev.createBufferQueue | Ev.new_BufferItemConsumer _ | Ev.new_Surface
  | Ev.new_RenderProxy _ _ => true
  | _ => false
  end.

(** ** Sample instances *)

(** A libhwui whose frame-info record has nine slots and whose draw reports
    the two low bits of the flags slot. *)
Definition sample_hwui : Libhwui := {|
  UI_THREAD_FRAME_INFO_SIZE := 9;
  DrawFrameTask_drawFrame := λ p, (Z.land (default 0 (mFrameInfo p !! 0%nat)) 3, p);
  PixelFormatToColorType := λ format, format;
  DataSpaceToColorSpace := λ ds, if bool_decide (ds = 0) then None else Some (ColorSpace ds)
|}.

Definition sample_proxy : RenderProxy := mk_RenderProxy (replicate 9 0) ∅.

(** A process with one proxy at address [4096], an attached thread, and a
    consumer that delivers a 2 x 2 buffer. *)
Definition sample_world : World := {|
  w_GetEnv := JNI_OK;
  w_GetJavaVM := JNI_OK;
  w_global_room := 8;
  w_next_global := 1;
  w_exception := None;
  w_brk := 1;
  w_heap := ∅;
  w_proxies := {[ 4096 := sample_proxy ]};
  w_mJvm := Some TheVM;
  w_systemTime := 1000;
  w_acquireBuffer := (OK, mk_BufferItem (Some (mk_GraphicBuffer 2 2 1)) 0);
  w_trace := []
|}.

(** The events of a snapshot up to and including [acquireBuffer]. *)
Definition snapshot_prefix (renderNodePtr width height vsync err : Z) : list event :=
  [Ev.createBufferQueue; Ev.setMaxBufferCount 2;
   Ev.new_BufferItemConsumer
     [GRALLOC_USAGE_HW_TEXTURE; GRALLOC_USAGE_SW_READ_NEVER;
      GRALLOC_USAGE_SW_WRITE_NEVER];
   Ev.setDefaultBufferSize width height; Ev.new_Surface;
   Ev.new_RenderProxy true renderNodePtr; Ev.setSwapBehavior kSwap_discardBuffer;
   Ev.setSurface; Ev.setLightAlpha 0 0; Ev.setLightGeometry 0 0 0 0;
   Ev.setVsync vsync vsync; Ev.addFlag SurfaceCanvas; Ev.syncAndDrawFrame;
   Ev.delete_RenderProxy; Ev.acquireBuffer err].

(** ** Statements of the specification that the code is compared with *)

(** The snapshot either fails with null or returns a bitmap whose buffer has
    the requested width and height. *)
Definition returns_null_or_requested_size `{Libhwui}
    (renderNodePtr jwidth jheight : Z) (w : World) : Prop :=
  match android_view_ThreadedRenderer_createHardwareBitmapFromRenderNode
          renderNodePtr jwidth jheight w with
  | Returned None _ => True
  | Returned (Some jb) _ =>
      getWidth (bm_buffer (jb_native jb)) = jwidth
      ∧ getHeight (bm_buffer (jb_native jb)) = jheight
  | _ => False
  end.

(** Under the size precondition the call returns what
    [RenderProxy::syncAndDrawFrame] computes on a proxy whose frame-info
    storage holds, in slot [i], element [i] of the array, for every element
    of the array below [frameInfoSize]; the proxy is left as that invocation
    left it. *)
Definition copies_frame_info_then_draws `{Libhwui}
    (proxyPtr : Z) (proxy : RenderProxy) (frameInfo : jlongArray)
    (frameInfoSize : Z) (w : World) : Prop :=
  frameInfoSize = UI_THREAD_FRAME_INFO_SIZE →
  ∃ (buf : list Z) (w' : World),
    (∀ (i : nat) (x : Z),
       Z.of_nat i < frameInfoSize → frameInfo !! i = Some x → buf !! i = Some x)
    ∧ android_view_ThreadedRenderer_syncAndDrawFrame
        proxyPtr frameInfo frameInfoSize w
      = Returned
          (DrawFrameTask_drawFrame
             (mk_RenderProxy buf (mFrameMetricsObservers proxy))).1 w'
    ∧ w_proxies w' !! proxyPtr
      = Some (DrawFrameTask_drawFrame
                (mk_RenderProxy buf (mFrameMetricsObservers proxy))).2.

(** The global reference [ref] of the lambda that captured [a] is released
    once, and by the destruction of the lambda: the calls for [xs] do not
    release it. *)
Definition released_when_destroyed (k : callback_kind) (a : positive)
    (ref : jobject) (xs : list Z) (w : World) : Prop :=
  match for_each (callback_call k a) xs w with
  | Returned _ w1 =>
      count (is_DeleteGlobalRef ref) (emitted w w1) = 0%nat
      ∧ match callback_destroy k a w1 with
        | Returned _ w2 => count (is_DeleteGlobalRef ref) (emitted w1 w2) = 1%nat
        | _ => False
        end
  | _ => False
  end.

(** Whether the registered observer [o] stands for the Java observer [fso]. *)
Definition observes (fso : jobject) (w : World) (o : Z) : bool :=
  match o with
  | Z.pos a =>
      match w_heap w !! a with
      | Some (FrameMetricsObserverProxy_obj _ fso') => bool_decide (fso' = fso)
      | _ => false
      end
  | _ => false
  end.

(** The entries of the proxy's registered set that stand for [fso]. *)
Definition entries_for (fso : jobject) (w : World) (proxyPtr : Z) : gset Z :=
  match w_proxies w !! proxyPtr with
  | Some proxy => filter (λ o, observes fso w o = true) (mFrameMetricsObservers proxy)
  | None => ∅
  end.

(** [nAddFrameMetricsObserver] for [fso], twice. *)
Definition add_twice (proxyPtr : Z) (fso : jobject) : M (Z * Z) :=
  o1 ← android_view_ThreadedRenderer_addFrameMetricsObserver proxyPtr fso;
  o2 ← android_view_ThreadedRenderer_addFrameMetricsObserver proxyPtr fso;
  mret (o1, o2).

(** After registering [fso] twice the registered set has exactly one entry
    for it. *)
Definition one_entry_after_add_twice (proxyPtr : Z) (fso : jobject) (w : World)
  : Prop :=
  match add_twice proxyPtr fso w with
  | Returned _ w2 => size (entries_for fso w2 proxyPtr) = 1%nat
  | _ => False
  end.

(** Every buffer is released with the string it was obtained from. *)
Definition releases_paired (t : list event) : Prop :=
  ∀ s chars, Ev.ReleaseStringUTFChars s chars ∈ t → Ev.GetStringUTFChars s chars ∈ t.

(** [sample_world] with a [GetJavaVM] that fails. *)
Definition no_vm_world : World := {|
  w_GetEnv := JNI_OK;
  w_GetJavaVM := JNI_ERR;
  w_global_room := 8;
  w_next_global := 1;
  w_exception := None;
  w_brk := 1;
  w_heap := ∅;
  w_proxies := {[ 4096 := sample_proxy ]};
  w_mJvm := None;
  w_systemTime := 1000;
  w_acquireBuffer := (OK, mk_BufferItem (Some (mk_GraphicBuffer 2 2 1)) 0);
  w_trace := []
|}.

(** A process in which a frame-complete callback was just registered for the
    Java object [7]. *)
Definition wrapper_world : World := {|
  w_GetEnv := JNI_OK;
  w_GetJavaVM := JNI_OK;
  w_global_room := 7;
  w_next_global := 2;
  w_exception := None;
  w_brk := 2;
  w_heap := {[ 1%positive := FrameCompleteWrapper_obj (Some TheVM) (Some (GlobalRef 1 7)) ]};
  w_proxies := {[ 4096 := sample_proxy ]};
  w_mJvm := Some TheVM;
  w_systemTime := 1000;
  w_acquireBuffer := (OK, mk_BufferItem (Some (mk_GraphicBuffer 2 2 1)) 0);
  w_trace := []
|}.

(** ** The table of native methods

    [gMethods] and the headers of the functions it registers.  A function is
    named as in the file, without the prefix [android_view_ThreadedRenderer_]
    that all of them share ([drawRenderNode] is spelt
    [android_view_ThreadedRendererd_drawRenderNode] there). *)

Module Fn.

Inductive t : Set :=
| rotateProcessStatsBuffer
| setProcessStatsBuffer
| getRenderThreadTid
| createRootRenderNode
| createProxy
| deleteProxy
| loadSystemProperties
| setName
| setSurface
| pause
| setStopped
| setLightAlpha
| setLightGeometry
| setOpaque
| setWideGamut
| syncAndDrawFrame
| destroy
| registerAnimatingRenderNode
| registerVectorDrawableAnimator
| invokeFunctor
| createTextureLayer
| buildLayer
| copyLayerInto
| pushLayerUpdate
| cancelLayerUpdate
| detachSurfaceTexture
| destroyHardwareResources
| trimMemory
| overrideProperty
| fence
| stopDrawing
| notifyFramePending
| dumpProfileInfo
| setupShadersDiskCache
| addRenderNode
| removeRenderNode
| drawRenderNode
| setContentDrawBounds
| setPictureCapturedCallbackJNI
| setFrameCallback
| setFrameCompleteCallback
| addFrameMetricsObserver
| removeFrameMetricsObserver
| copySurfaceInto
| createHardwareBitmapFromRenderNode
| disableVsync
| setHighContrastText
| hackySetRTAnimationsEnabled
| setDebuggingEnabled
| setIsolatedProcess
| setContextPriority
| allocateBuffers
| setForceDark
| preload.

#[global] Instance eq_dec : EqDecision t.
Proof. solve_decision. Defined.

End Fn.

(** The C++ types that occur in the headers. *)
Inductive ctype : Set :=
| c_void | c_int | c_jint | c_jlong | c_jboolean | c_jfloat
| c_jobject | c_jclass | c_jstring | c_jlongArray | c_JNIEnv_ptr.

(** The header of a function: its parameter types and its return type. *)
Definition header (f : Fn.t) : list ctype * ctype :=
  match f with
  | Fn.rotateProcessStatsBuffer =>
      ([c_JNIEnv_ptr; c_jobject], c_void)
  | Fn.setProcessStatsBuffer =>
      ([c_JNIEnv_ptr; c_jobject; c_jint], c_void)
  | Fn.getRenderThreadTid =>
      ([c_JNIEnv_ptr; c_jobject; c_jlong], c_jint)
  | Fn.createRootRenderNode =>
      ([c_JNIEnv_ptr; c_jobject], c_jlong)
  | Fn.createProxy =>
      ([c_JNIEnv_ptr; c_jobject; c_jboolean; c_jlong], c_jlong)
  | Fn.deleteProxy =>
      ([c_JNIEnv_ptr; c_jobject; c_jlong], c_void)
  | Fn.loadSystemProperties =>
      ([c_JNIEnv_ptr; c_jobject; c_jlong], c_jboolean)
  | Fn.setName =>
      ([c_JNIEnv_ptr; c_jobject; c_jlong; c_jstring], c_void)
  | Fn.setSurface =>
      ([c_JNIEnv_ptr; c_jobject; c_jlong; c_jobject], c_void)
  | Fn.pause =>
      ([c_JNIEnv_ptr; c_jobject; c_jlong], c_jboolean)
  | Fn.setStopped =>
      ([c_JNIEnv_ptr; c_jobject; c_jlong; c_jboolean], c_void)
  | Fn.setLightAlpha =>
      ([c_JNIEnv_ptr; c_jobject; c_jlong; c_jfloat; c_jfloat], c_void)
  | Fn.setLightGeometry =>
      ([c_JNIEnv_ptr; c_jobject; c_jlong; c_jfloat; c_jfloat; c_jfloat; c_jfloat], c_void)
  | Fn.setOpaque =>
      ([c_JNIEnv_ptr; c_jobject; c_jlong; c_jboolean], c_void)
  | Fn.setWideGamut =>
      ([c_JNIEnv_ptr; c_jobject; c_jlong; c_jboolean], c_void)
  | Fn.syncAndDrawFrame =>
      ([c_JNIEnv_ptr; c_jobject; c_jlong; c_jlongArray; c_jint], c_int)
  | Fn.destroy =>
      ([c_JNIEnv_ptr; c_jobject; c_jlong; c_jlong], c_void)
  | Fn.registerAnimatingRenderNode =>
      ([c_JNIEnv_ptr; c_jobject; c_jlong; c_jlong], c_void)
  | Fn.registerVectorDrawableAnimator =>
      ([c_JNIEnv_ptr; c_jobject; c_jlong; c_jlong], c_void)
  | Fn.invokeFunctor =>
      ([c_JNIEnv_ptr; c_jobject; c_jlong; c_jboolean], c_void)
  | Fn.createTextureLayer =>
      ([c_JNIEnv_ptr; c_jobject; c_jlong], c_jlong)
  | Fn.buildLayer =>
      ([c_JNIEnv_ptr; c_jobject; c_jlong; c_jlong], c_void)
  | Fn.copyLayerInto =>
      ([c_JNIEnv_ptr; c_jobject; c_jlong; c_jlong; c_jlong], c_jboolean)
  | Fn.pushLayerUpdate =>
      ([c_JNIEnv_ptr; c_jobject; c_jlong; c_jlong], c_void)
  | Fn.cancelLayerUpdate =>
      ([c_JNIEnv_ptr; c_jobject; c_jlong; c_jlong], c_void)
  | Fn.detachSurfaceTexture =>
      ([c_JNIEnv_ptr; c_jobject; c_jlong; c_jlong], c_void)
  | Fn.destroyHardwareResources =>
      ([c_JNIEnv_ptr; c_jobject; c_jlong], c_void)
  | Fn.trimMemory =>
      ([c_JNIEnv_ptr; c_jobject; c_jint], c_void)
  | Fn.overrideProperty =>
      ([c_JNIEnv_ptr; c_jobject; c_jstring; c_jstring], c_void)
  | Fn.fence =>
      ([c_JNIEnv_ptr; c_jobject; c_jlong], c_void)
  | Fn.stopDrawing =>
      ([c_JNIEnv_ptr; c_jobject; c_jlong], c_void)
  | Fn.notifyFramePending =>
      ([c_JNIEnv_ptr; c_jobject; c_jlong], c_void)
  | Fn.dumpProfileInfo =>
      ([c_JNIEnv_ptr; c_jobject; c_jlong; c_jobject; c_jint], c_void)
  | Fn.setupShadersDiskCache =>
      ([c_JNIEnv_ptr; c_jobject; c_jstring; c_jstring], c_void)
  | Fn.addRenderNode =>
      ([c_JNIEnv_ptr; c_jobject; c_jlong; c_jlong; c_jboolean], c_void)
  | Fn.removeRenderNode =>
      ([c_JNIEnv_ptr; c_jobject; c_jlong; c_jlong], c_void)
  | Fn.drawRenderNode =>
      ([c_JNIEnv_ptr; c_jobject; c_jlong; c_jlong], c_void)
  | Fn.setContentDrawBounds =>
      ([c_JNIEnv_ptr; c_jobject; c_jlong; c_jint; c_jint; c_jint; c_jint], c_void)
  | Fn.setPictureCapturedCallbackJNI =>
      ([c_JNIEnv_ptr; c_jobject; c_jlong; c_jobject], c_void)
  | Fn.setFrameCallback =>
      ([c_JNIEnv_ptr; c_jobject; c_jlong; c_jobject], c_void)
  | Fn.setFrameCompleteCallback =>
      ([c_JNIEnv_ptr; c_jobject; c_jlong; c_jobject], c_void)
  | Fn.addFrameMetricsObserver =>
      ([c_JNIEnv_ptr; c_jclass; c_jlong; c_jobject], c_jlong)
  | Fn.removeFrameMetricsObserver =>
      ([c_JNIEnv_ptr; c_jclass; c_jlong; c_jlong], c_void)
  | Fn.copySurfaceInto =>
      ([c_JNIEnv_ptr; c_jobject; c_jobject; c_jint; c_jint; c_jint; c_jint; c_jlong], c_jint)
  | Fn.createHardwareBitmapFromRenderNode =>
      ([c_JNIEnv_ptr; c_jobject; c_jlong; c_jint; c_jint], c_jobject)
  | Fn.disableVsync =>
      ([c_JNIEnv_ptr; c_jclass], c_void)
  | Fn.setHighContrastText =>
      ([c_JNIEnv_ptr; c_jclass; c_jboolean], c_void)
  | Fn.hackySetRTAnimationsEnabled =>
      ([c_JNIEnv_ptr; c_jclass; c_jboolean], c_void)
  | Fn.setDebuggingEnabled =>
      ([c_JNIEnv_ptr; c_jclass; c_jboolean], c_void)
  | Fn.setIsolatedProcess =>
      ([c_JNIEnv_ptr; c_jclass; c_jboolean], c_void)
  | Fn.setContextPriority =>
      ([c_JNIEnv_ptr; c_jclass; c_jint], c_void)
  | Fn.allocateBuffers =>
      ([c_JNIEnv_ptr; c_jobject; c_jlong], c_void)
  | Fn.setForceDark =>
      ([c_JNIEnv_ptr; c_jobject; c_jlong; c_jboolean], c_void)
  | Fn.preload =>
      ([c_JNIEnv_ptr; c_jclass], c_void)
  end.

Record JNINativeMethod : Set := mk_JNINativeMethod {
  jni_name : string;
  jni_signature : string;
  jni_fnPtr : Fn.t
}.

Definition kClassPathName : string := "android/graphics/HardwareRenderer".

Definition gMethods : list JNINativeMethod := [
  mk_JNINativeMethod "nRotateProcessStatsBuffer"
    "()V" Fn.rotateProcessStatsBuffer;
  mk_JNINativeMethod "nSetProcessStatsBuffer"
    "(I)V" Fn.setProcessStatsBuffer;
  mk_JNINativeMethod "nGetRenderThreadTid"
    "(J)I" Fn.getRenderThreadTid;
  mk_JNINativeMethod "nCreateRootRenderNode"
    "()J" Fn.createRootRenderNode;
  mk_JNINativeMethod "nCreateProxy"
    "(ZJ)J" Fn.createProxy;
  mk_JNINativeMethod "nDeleteProxy"
    "(J)V" Fn.deleteProxy;
  mk_JNINativeMethod "nLoadSystemProperties"
    "(J)Z" Fn.loadSystemProperties;
  mk_JNINativeMethod "nSetName"
    "(JLjava/lang/String;)V" Fn.setName;
  mk_JNINativeMethod "nSetSurface"
    "(JLandroid/view/Surface;)V" Fn.setSurface;
  mk_JNINativeMethod "nPause"
    "(J)Z" Fn.pause;
  mk_JNINativeMethod "nSetStopped"
    "(JZ)V" Fn.setStopped;
  mk_JNINativeMethod "nSetLightAlpha"
    "(JFF)V" Fn.setLightAlpha;
  mk_JNINativeMethod "nSetLightGeometry"
    "(JFFFF)V" Fn.setLightGeometry;
  mk_JNINativeMethod "nSetOpaque"
    "(JZ)V" Fn.setOpaque;
  mk_JNINativeMethod "nSetWideGamut"
    "(JZ)V" Fn.setWideGamut;
  mk_JNINativeMethod "nSyncAndDrawFrame"
    "(J[JI)I" Fn.syncAndDrawFrame;
  mk_JNINativeMethod "nDestroy"
    "(JJ)V" Fn.destroy;
  mk_JNINativeMethod "nRegisterAnimatingRenderNode"
    "(JJ)V" Fn.registerAnimatingRenderNode;
  mk_JNINativeMethod "nRegisterVectorDrawableAnimator"
    "(JJ)V" Fn.registerVectorDrawableAnimator;
  mk_JNINativeMethod "nInvokeFunctor"
    "(JZ)V" Fn.invokeFunctor;
  mk_JNINativeMethod "nCreateTextureLayer"
    "(J)J" Fn.createTextureLayer;
  mk_JNINativeMethod "nBuildLayer"
    "(JJ)V" Fn.buildLayer;
  mk_JNINativeMethod "nCopyLayerInto"
    "(JJJ)Z" Fn.copyLayerInto;
  mk_JNINativeMethod "nPushLayerUpdate"
    "(JJ)V" Fn.pushLayerUpdate;
  mk_JNINativeMethod "nCancelLayerUpdate"
    "(JJ)V" Fn.cancelLayerUpdate;
  mk_JNINativeMethod "nDetachSurfaceTexture"
    "(JJ)V" Fn.detachSurfaceTexture;
  mk_JNINativeMethod "nDestroyHardwareResources"
    "(J)V" Fn.destroyHardwareResources;
  mk_JNINativeMethod "nTrimMemory"
    "(I)V" Fn.trimMemory;
  mk_JNINativeMethod "nOverrideProperty"
    "(Ljava/lang/String;Ljava/lang/String;)V" Fn.overrideProperty;
  mk_JNINativeMethod "nFence"
    "(J)V" Fn.fence;
  mk_JNINativeMethod "nStopDrawing"
    "(J)V" Fn.stopDrawing;
  mk_JNINativeMethod "nNotifyFramePending"
    "(J)V" Fn.notifyFramePending;
  mk_JNINativeMethod "nDumpProfileInfo"
    "(JLjava/io/FileDescriptor;I)V" Fn.dumpProfileInfo;
  mk_JNINativeMethod "setupShadersDiskCache"
    "(Ljava/lang/String;Ljava/lang/String;)V" Fn.setupShadersDiskCache;
  mk_JNINativeMethod "nAddRenderNode"
    "(JJZ)V" Fn.addRenderNode;
  mk_JNINativeMethod "nRemoveRenderNode"
    "(JJ)V" Fn.removeRenderNode;
  mk_JNINativeMethod "nDrawRenderNode"
    "(JJ)V" Fn.drawRenderNode;
  mk_JNINativeMethod "nSetContentDrawBounds"
    "(JIIII)V" Fn.setContentDrawBounds;
  mk_JNINativeMethod "nSetPictureCaptureCallback"
    "(JLandroid/graphics/HardwareRenderer$PictureCapturedCallback;)V" Fn.setPictureCapturedCallbackJNI;
  mk_JNINativeMethod "nSetFrameCallback"
    "(JLandroid/graphics/HardwareRenderer$FrameDrawingCallback;)V" Fn.setFrameCallback;
  mk_JNINativeMethod "nSetFrameCompleteCallback"
    "(JLandroid/graphics/HardwareRenderer$FrameCompleteCallback;)V" Fn.setFrameCompleteCallback;
  mk_JNINativeMethod "nAddFrameMetricsObserver"
    "(JLandroid/view/FrameMetricsObserver;)J" Fn.addFrameMetricsObserver;
  mk_JNINativeMethod "nRemoveFrameMetricsObserver"
    "(JJ)V" Fn.removeFrameMetricsObserver;
  mk_JNINativeMethod "nCopySurfaceInto"
    "(Landroid/view/Surface;IIIIJ)I" Fn.copySurfaceInto;
  mk_JNINativeMethod "nCreateHardwareBitmap"
    "(JII)Landroid/graphics/Bitmap;" Fn.createHardwareBitmapFromRenderNode;
  mk_JNINativeMethod "disableVsync"
    "()V" Fn.disableVsync;
  mk_JNINativeMethod "nSetHighContrastText"
    "(Z)V" Fn.setHighContrastText;
  mk_JNINativeMethod "nHackySetRTAnimationsEnabled"
    "(Z)V" Fn.hackySetRTAnimationsEnabled;
  mk_JNINativeMethod "nSetDebuggingEnabled"
    "(Z)V" Fn.setDebuggingEnabled;
  mk_JNINativeMethod "nSetIsolatedProcess"
    "(Z)V" Fn.setIsolatedProcess;
  mk_JNINativeMethod "nSetContextPriority"
    "(I)V" Fn.setContextPriority;
  mk_JNINativeMethod "nAllocateBuffers"
    "(J)V" Fn.allocateBuffers;
  mk_JNINativeMethod "nSetForceDark"
    "(JZ)V" Fn.setForceDark;
  mk_JNINativeMethod "preload"
    "()V" Fn.preload
].

(** ** The rest of the file

    The functions below are the ones the statements above do not reach. *)

Definition set_mJvm (vm : option JavaVM) (w : World) : World :=
  mk_World (w_GetEnv w) (w_GetJavaVM w) (w_global_room w) (w_next_global w)
           (w_exception w) (w_brk w) (w_heap w) (w_proxies w) vm
           (w_systemTime w) (w_acquireBuffer w) (w_trace w).

(** *** class JvmErrorReporter *)




(** *** register_android_view_ThreadedRenderer *)

(** What the registration calls and this file does not define:
    [RenderThread::setOnStartHook] of libhwui, the lookups of
    [core_jni_helpers.h], which do not return when they fail, and
    [RegisterMethodsOrDie]. *)
Class CoreJni : Type := {
  RenderThread_setOnStartHook : M unit;
  FindClassOrDie : string → M jref;
  GetStaticMethodIDOrDie : jref → string → string → M jmethodID;
  GetMethodIDOrDie : jref → string → string → M jmethodID;
  RegisterMethodsOrDie : string → list JNINativeMethod → Z → M Z
}.

(** The file's static structures that the registration fills in. *)
Record Globals : Set := mk_Globals {
  gHardwareRenderer_clazz : jobject;
  gHardwareRenderer_invokePictureCapturedCallback : jmethodID;
  gFrameDrawingCallback_onFrameDraw : jmethodID;
  gFrameCompleteCallback_onFrameComplete : jmethodID
}.

(** The value is what the function returns, with the structures it filled. *)
Definition register_android_view_ThreadedRenderer `{CoreJni} : M (Z * Globals) :=
  mJvm ← gets w_mJvm;
  r ← GetJavaVM mJvm;
  modify (set_mJvm r.2);;
  RenderThread_setOnStartHook;;
  hardwareRenderer ← FindClassOrDie "android/graphics/HardwareRenderer";
  clazz ← NewGlobalRef (Some hardwareRenderer);
  invoke ← GetStaticMethodIDOrDie hardwareRenderer
             "invokePictureCapturedCallback"
             "(JLandroid/graphics/HardwareRenderer$PictureCapturedCallback;)V";
  frameCallbackClass ←
    FindClassOrDie "android/graphics/HardwareRenderer$FrameDrawingCallback";
  draw ← GetMethodIDOrDie frameCallbackClass "onFrameDraw" "(J)V";
  frameCompleteClass ←
    FindClassOrDie "android/graphics/HardwareRenderer$FrameCompleteCallback";
  complete ← GetMethodIDOrDie frameCompleteClass "onFrameComplete" "(J)V";
  result ← RegisterMethodsOrDie kClassPathName gMethods
             (Z.of_nat (length gMethods));
  mret (result, mk_Globals clazz invoke draw complete).

(** An operation that cannot write the file's [static JavaVM* mJvm]. *)
Definition keeps_mJvm {A} (op : M A) : Prop :=
  ∀ w a w', op w = Returned a w' → w_mJvm w' = w_mJvm w.

(** The operations of a [CoreJni] are defined in other translation units:
    none of them can write [mJvm]. *)
Definition CoreJni_keeps_mJvm `{CoreJni} : Prop :=
  keeps_mJvm RenderThread_setOnStartHook
  ∧ (∀ name, keeps_mJvm (FindClassOrDie name))
  ∧ (∀ clazz name sig, keeps_mJvm (GetStaticMethodIDOrDie clazz name sig))
  ∧ (∀ clazz name sig, keeps_mJvm (GetMethodIDOrDie clazz name sig))
  ∧ (∀ path methods n, keeps_mJvm (RegisterMethodsOrDie path methods n)).

(** *** JNI method descriptors *)

Inductive jtype : Set :=
| JBoolean | JByte | JChar | JShort | JInt | JLong | JFloat | JDouble | JVoid
| JObject (cls : string)
| JArray (elem : jtype).

(** The characters a Java identifier starts with, [A-Z a-z _ $], and goes
    on with, these and [0-9]. *)
Definition is_identifier_start (c : ascii) : bool :=
  let n := N_of_ascii c in
  N.leb 65 n && N.leb n 90 || N.leb 97 n && N.leb n 122
  || N.eqb n 95 || N.eqb n 36.

Definition is_identifier_part (c : ascii) : bool :=
  let n := N_of_ascii c in
  is_identifier_start c || N.leb 48 n && N.leb n 57.

(** A class name in internal form: Java identifiers separated by [/].
    [start] tells that an identifier has to begin here, which it does at the
    head of the name and behind each [/]. *)
Fixpoint internal_name (start : bool) (s : string) : bool :=
  match s with
  | EmptyString => negb start
  | String c s' =>
      if Ascii.eqb c "/"%char then negb start && internal_name true s'
      else (if start then is_identifier_start c else is_identifier_part c)
           && internal_name false s'
  end.

(** The characters in front of the first [;], and what follows it. *)
Fixpoint until_semicolon (s : string) : option (string * string) :=
  match s with
  | EmptyString => None
  | String c s' =>
      if Ascii.eqb c ";"%char then Some (EmptyString, s')
      else match until_semicolon s' with
           | Some (cls, rest) => Some (String c cls, rest)
           | None => None
           end
  end.

(** The class name in front of the first [;], and what follows it. *)
Definition class_name (s : string) : option (string * string) :=
  match until_semicolon s with
  | Some (cls, rest) =>
      if internal_name true cls then Some (cls, rest) else None
  | None => None
  end.

(** One type at the head of a descriptor, and what follows it. *)
Fixpoint field_type (s : string) : option (jtype * string) :=
  match s with
  | EmptyString => None
  | String c s' =>
      if Ascii.eqb c "Z"%char then Some (JBoolean, s')
      else if Ascii.eqb c "B"%char then Some (JByte, s')
      else if Ascii.eqb c "C"%char then Some (JChar, s')
      else if Ascii.eqb c "S"%char then Some (JShort, s')
      else if Ascii.eqb c "I"%char then Some (JInt, s')
      else if Ascii.eqb c "J"%char then Some (JLong, s')
      else if Ascii.eqb c "F"%char then Some (JFloat, s')
      else if Ascii.eqb c "D"%char then Some (JDouble, s')
      else if Ascii.eqb c "L"%char then
        match class_name s' with
        | Some (cls, rest) => Some (JObject cls, rest)
        | None => None
        end
      else if Ascii.eqb c "["%char then
        match field_type s' with
        | Some (elem, rest) => Some (JArray elem, rest)
        | None => None
        end
      else None
  end.

(** The parameter types up to the closing parenthesis. *)
Fixpoint parameters (fuel : nat) (s : string) : option (list jtype * string) :=
  match fuel with
  | O => None
  | S fuel' =>
      match s with
      | EmptyString => None
      | String c s' =>
          if Ascii.eqb c ")"%char then Some ([], s')
          else match field_type s with
               | Some (t, rest) =>
                   match parameters fuel' rest with
                   | Some (ts, rest') => Some (t :: ts, rest')
                   | None => None
                   end
               | None => None
               end
      end
  end.

(** A method descriptor [(parameters)return]. *)
Definition method_descriptor (s : string) : option (list jtype * jtype) :=
  match s with
  | EmptyString => None
  | String c s' =>
      if Ascii.eqb c "("%char then
        match parameters (String.length s) s' with
        | Some (ts, ret) =>
            if String.eqb ret "V" then Some (ts, JVoid)
            else match field_type ret with
                 | Some (t, EmptyString) => Some (ts, t)
                 | _ => None
                 end
        | None => None
        end
      else None
  end.

(** A type that a parameter or a field can have: not [void], also not as
    the element of an array, and classes named in internal form. *)
Fixpoint field_type_ok (t : jtype) : bool :=
  match t with
  | JVoid => false
  | JObject cls => internal_name true cls
  | JArray elem => field_type_ok elem
  | _ => true
  end.

Definition return_type_ok (t : jtype) : bool :=
  match t with
  | JVoid => true
  | _ => field_type_ok t
  end.

(** The descriptor of a type, and of a method. *)
Fixpoint jtype_string (t : jtype) : string :=
  match t with
  | JBoolean => "Z"
  | JByte => "B"
  | JChar => "C"
  | JShort => "S"
  | JInt => "I"
  | JLong => "J"
  | JFloat => "F"
  | JDouble => "D"
  | JVoid => "V"
  | JObject cls => "L" +:+ cls +:+ ";"
  | JArray elem => "[" +:+ jtype_string elem
  end.

Definition descriptor_string (ts : list jtype) (ret : jtype) : string :=
  "(" +:+ String.concat "" (map jtype_string ts) +:+ ")" +:+ jtype_string ret.

(** The C++ type that carries a Java type across JNI ([int] is [jint]). *)
Definition carries (c : ctype) (j : jtype) : bool :=
  match j, c with
  | JBoolean, c_jboolean => true
  | JInt, c_jint => true
  | JInt, c_int => true
  | JLong, c_jlong => true
  | JFloat, c_jfloat => true
  | JVoid, c_void => true
  | JArray JLong, c_jlongArray => true
  | JObject cls, c_jstring => String.eqb cls "java/lang/String"
  | JObject cls, c_jobject => negb (String.eqb cls "java/lang/String")
  | _, _ => false
  end.

Fixpoint all2 {A B} (p : A → B → bool) (xs : list A) (ys : list B) : bool :=
  match xs, ys with
  | [], [] => true
  | x :: xs', y :: ys' => p x y && all2 p xs' ys'
  | _, _ => false
  end.

(** The header of the registered function reads [JNIEnv*], then [jobject] or
    [jclass], then one parameter per type of the descriptor, and returns the
    descriptor's return type. *)
Definition header_matches (m : JNINativeMethod) : bool :=
  match method_descriptor (jni_signature m), header (jni_fnPtr m) with
  | Some (ts, ret), (c_JNIEnv_ptr :: this :: cs, cret) =>
      match this with c_jobject | c_jclass => true | _ => false end
      && all2 carries cs ts && carries cret ret
  | _, _ => false
  end.

(** ** Further events of interest and sample processes *)

Definition is_acquireBuffer (e : event) : bool :=
  match e with Ev.acquireBuffer _ => true | _ => false end.

Definition is_releaseBuffer (e : event) : bool :=
  match e with Ev.releaseBuffer => true | _ => false end.

Definition is_ALOGW (e : event) : bool :=
  match e with Ev.ALOGW _ _ => true | _ => false end.

Definition is_GetStringUTFChars (e : event) : bool :=
  match e with Ev.GetStringUTFChars _ _ => true | _ => false end.

Definition is_ReleaseStringUTFChars (e : event) : bool :=
  match e with Ev.ReleaseStringUTFChars _ _ => true | _ => false end.

Definition is_temporary_proxy (e : event) : bool :=
  match e with
  | Ev.new_RenderProxy _ _ | Ev.syncAndDrawFrame | Ev.delete_RenderProxy => true
  | _ => false
  end.

(** [wrapper_world] on a thread that is not attached to the VM. *)
Definition detached_world : World := {|
  w_GetEnv := JNI_EDETACHED;
  w_GetJavaVM := JNI_OK;
  w_global_room := 7;
  w_next_global := 2;
  w_exception := None;
  w_brk := 2;
  w_heap := {[ 1%positive := FrameCompleteWrapper_obj (Some TheVM) (Some (GlobalRef 1 7)) ]};
  w_proxies := {[ 4096 := sample_proxy ]};
  w_mJvm := Some TheVM;
  w_systemTime := 1000;
  w_acquireBuffer := (OK, mk_BufferItem (Some (mk_GraphicBuffer 2 2 1)) 0);
  w_trace := []
|}.

(** [detached_world] once the callback has fired: the wrapper has released
    its reference. *)
Definition fired_detached_world : World := {|
  w_GetEnv := JNI_EDETACHED;
  w_GetJavaVM := JNI_OK;
  w_global_room := 8;
  w_next_global := 2;
  w_exception := None;
  w_brk := 2;
  w_heap := {[ 1%positive := FrameCompleteWrapper_obj (Some TheVM) None ]};
  w_proxies := {[ 4096 := sample_proxy ]};
  w_mJvm := Some TheVM;
  w_systemTime := 1000;
  w_acquireBuffer := (OK, mk_BufferItem (Some (mk_GraphicBuffer 2 2 1)) 0);
  w_trace := []
|}.

(** [sample_world] with a global reference table that is full. *)
Definition full_world : World := {|
  w_GetEnv := JNI_OK;
  w_GetJavaVM := JNI_OK;
  w_global_room := 0;
  w_next_global := 1;
  w_exception := None;
  w_brk := 1;
  w_heap := ∅;
  w_proxies := {[ 4096 := sample_proxy ]};
  w_mJvm := Some TheVM;
  w_systemTime := 1000;
  w_acquireBuffer := (OK, mk_BufferItem (Some (mk_GraphicBuffer 2 2 1)) 0);
  w_trace := []
|}.

(** A process in which a picture callback was just registered for the Java
    object [7]. *)
Definition holder_world : World := {|
  w_GetEnv := JNI_OK;
  w_GetJavaVM := JNI_OK;
  w_global_room := 7;
  w_next_global := 2;
  w_exception := None;
  w_brk := 2;
  w_heap := {[ 1%positive := JGlobalRefHolder_obj (Some TheVM) (Some (GlobalRef 1 7)) ]};
  w_proxies := {[ 4096 := sample_proxy ]};
  w_mJvm := Some TheVM;
  w_systemTime := 1000;
  w_acquireBuffer := (OK, mk_BufferItem (Some (mk_GraphicBuffer 2 2 1)) 0);
  w_trace := []
|}.

(** A process that has not registered yet: [mJvm] is still null. *)
Definition unregistered_world : World := {|
  w_GetEnv := JNI_OK;
  w_GetJavaVM := JNI_OK;
  w_global_room := 8;
  w_next_global := 1;
  w_exception := None;
  w_brk := 1;
  w_heap := ∅;
  w_proxies := ∅;
  w_mJvm := None;
  w_systemTime := 1000;
  w_acquireBuffer := (OK, mk_BufferItem None 0);
  w_trace := []
|}.

(** Lookups that find every class and method, and a registration that
    succeeds. *)
Definition sample_core_jni : CoreJni := {|
  RenderThread_setOnStartHook := mret ();
  FindClassOrDie := λ name, mret (LocalRef 100);
  GetStaticMethodIDOrDie := λ clazz name sig, mret invokePictureCapturedCallback;
  GetMethodIDOrDie := λ clazz name sig,
    mret (if String.eqb name "onFrameDraw" then onFrameDraw else onFrameComplete);
  RegisterMethodsOrDie := λ path methods n, mret 0
|}.

(** * Properties *)

(** ** Running a sequence *)

Lemma bind_returned {A B} (c : M A) (f : A → M B) w a w' :
  c w = Returned a w' → (c ≫= f) w = f a w'.
Proof. intros Hc. unfold mbind, M_bind. by rewrite Hc. Qed.

Lemma bind_fatal {A B} (c : M A) (f : A → M B) w msg w' :
  c w = Fatal msg w' → (c ≫= f) w = Fatal msg w'.
Proof. intros Hc. unfold mbind, M_bind. by rewrite Hc. Qed.

Lemma bind_undefined {A B} (c : M A) (f : A → M B) w w' :
  c w = Undefined w' → (c ≫= f) w = Undefined w'.
Proof. intros Hc. unfold mbind, M_bind. by rewrite Hc. Qed.

Lemma deref_proxy_live proxyPtr proxy w :
  w_proxies w !! proxyPtr = Some proxy → deref_proxy proxyPtr w = Returned proxy w.
Proof. intros Hp. unfold deref_proxy. by rewrite Hp. Qed.

(** Runs the sequencing operators and the state primitives, by value so that
    a world is computed once however often it is read. *)
Ltac run :=
  cbv beta iota zeta delta
    [mbind M_bind mret M_ret gets modify emit undefined
     LOG_ALWAYS_FATAL_IF LOG_ALWAYS_FATAL write_proxy store free new
     set_global_room set_next_global set_exception set_brk set_heap
     set_proxies set_trace
     w_GetEnv w_GetJavaVM w_global_room w_next_global w_exception w_brk
     w_heap w_proxies w_mJvm w_systemTime w_acquireBuffer w_trace] in *;
  cbn [fst snd] in *.

(** ** nSyncAndDrawFrame *)

(** C1. A call whose [frameInfoSize] differs from [UI_THREAD_FRAME_INFO_SIZE]
    ends in [LOG_ALWAYS_FATAL] before anything else is done, so no result is
    returned; a call with [frameInfoSize = UI_THREAD_FRAME_INFO_SIZE] never
    ends in [LOG_ALWAYS_FATAL]. *)
Theorem syncAndDrawFrame_size_check `{Libhwui}
    (proxyPtr : Z) (frameInfo : jlongArray) (frameInfoSize : Z) (w : World) :
  (frameInfoSize ≠ UI_THREAD_FRAME_INFO_SIZE →
   android_view_ThreadedRenderer_syncAndDrawFrame proxyPtr frameInfo frameInfoSize w
   = Fatal "Mismatched size expectations, given %d expected %d" w)
  ∧
  (frameInfoSize = UI_THREAD_FRAME_INFO_SIZE →
   ¬ is_fatal
       (android_view_ThreadedRenderer_syncAndDrawFrame
          proxyPtr frameInfo frameInfoSize w)).
Proof.
  unfold android_view_ThreadedRenderer_syncAndDrawFrame. split; intros Hsize.
  - apply bind_fatal. by rewrite bool_decide_eq_true_2.
  - rewrite bool_decide_eq_false_2 by (intros Hne; by apply Hne).
    unfold RenderProxy_syncAndDrawFrame, GetLongArrayRegion, deref_proxy. run.
    destruct (w_proxies w !! proxyPtr) as [proxy|] eqn:Hp; [|cbn; tauto].
    case_bool_decide; run; rewrite lookup_insert_eq; cbn; tauto.
Qed.

Lemma syncAndDrawFrame_size_check_witness :
  is_fatal (android_view_ThreadedRenderer_syncAndDrawFrame (H := sample_hwui)
              4096 [1; 2; 3] 3 sample_world)
  ∧ ¬ is_fatal (android_view_ThreadedRenderer_syncAndDrawFrame (H := sample_hwui)
                  4096 [1; 2; 3; 4; 5; 6; 7; 8; 9] 9 sample_world).
Proof.
  split.
  - rewrite (proj1 (syncAndDrawFrame_size_check (H := sample_hwui)
                      4096 [1; 2; 3] 3 sample_world)).
    + exact I.
    + cbn. lia.
  - apply (proj2 (syncAndDrawFrame_size_check (H := sample_hwui)
                    4096 [1; 2; 3; 4; 5; 6; 7; 8; 9] 9 sample_world)).
    reflexivity.
Defined.

(** What [GetLongArrayRegion(array, 0, len, buf)] leaves in [buf] when the
    array holds [len] elements or more. *)
Lemma region_copy_lookup (array buf : list Z) (len : Z) (i : nat) :
  len ≤ Z.of_nat (length array) →
  (take (Z.to_nat len) (drop (Z.to_nat 0) array) ++ drop (Z.to_nat len) buf) !! i
  = if bool_decide (Z.of_nat i < len) then array !! i else buf !! i.
Proof.
  intros Hlen. change (Z.to_nat 0) with 0%nat. rewrite drop_0.
  case_bool_decide as Hi.
  - rewrite lookup_app_l by (rewrite length_take; lia).
    apply lookup_take_lt. lia.
  - rewrite lookup_app_r by (rewrite length_take; lia).
    rewrite length_take, lookup_drop. f_equal. lia.
Qed.

(** C2, as stated, fails: the size precondition says nothing of the array.
    With the expected [frameInfoSize] of 9 and an array of three elements,
    [GetLongArrayRegion] raises and copies nothing: the frame is drawn from
    the frame info the proxy held before, whose slot 0 holds 0 and not the
    array's 1. *)
Lemma syncAndDrawFrame_short_array_not_copied :
  ¬ copies_frame_info_then_draws (H := sample_hwui)
      4096 sample_proxy [1; 2; 3] 9 sample_world.
Proof.
  intros Hclaim.
  destruct (Hclaim eq_refl) as (buf & w' & Hcopy & Hrun & _).
  specialize (Hcopy 0%nat 1 eq_refl eq_refl).
  assert (∃ w1,
            android_view_ThreadedRenderer_syncAndDrawFrame (H := sample_hwui)
              4096 [1; 2; 3] 9 sample_world = Returned 0 w1) as [w1 Heval]
    by (eexists; vm_compute; reflexivity).
  rewrite Heval in Hrun. injection Hrun as Hresult _.
  cbn in Hresult. rewrite Hcopy in Hresult. discriminate Hresult.
Qed.

(** C2, amended. With [frameInfoSize = UI_THREAD_FRAME_INFO_SIZE], a live
    proxy and an array that holds at least [frameInfoSize] elements, the
    call returns; when [RenderProxy::syncAndDrawFrame] runs, slot [i] of the
    proxy's frame-info buffer holds element [i] of the array for every
    [i < frameInfoSize] and the rest of the proxy is as before; the value
    returned is the one [RenderProxy::syncAndDrawFrame] computed. *)
Theorem syncAndDrawFrame_copies_then_draws `{Libhwui}
    (proxyPtr : Z) (proxy : RenderProxy) (frameInfo : jlongArray)
    (frameInfoSize : Z) (w : World) :
  frameInfoSize = UI_THREAD_FRAME_INFO_SIZE →
  w_proxies w !! proxyPtr = Some proxy →
  frameInfoSize ≤ Z.of_nat (length frameInfo) →
  ∃ (buf : list Z) (w' : World),
    (∀ i : nat, Z.of_nat i < frameInfoSize → buf !! i = frameInfo !! i)
    ∧ (∀ i : nat, frameInfoSize ≤ Z.of_nat i → buf !! i = mFrameInfo proxy !! i)
    ∧ android_view_ThreadedRenderer_syncAndDrawFrame
        proxyPtr frameInfo frameInfoSize w
      = Returned
          (DrawFrameTask_drawFrame
             (mk_RenderProxy buf (mFrameMetricsObservers proxy))).1 w'
    ∧ w_proxies w' !! proxyPtr
      = Some (DrawFrameTask_drawFrame
                (mk_RenderProxy buf (mFrameMetricsObservers proxy))).2
    ∧ w_trace w' = w_trace w.
Proof.
  intros Hsize Hp Hlen.
  unfold android_view_ThreadedRenderer_syncAndDrawFrame.
  rewrite bool_decide_eq_false_2 by (intros Hne; by apply Hne).
  unfold RenderProxy_syncAndDrawFrame, GetLongArrayRegion, deref_proxy. run.
  rewrite Hp. case_bool_decide as Hout; run; rewrite lookup_insert_eq; cbn.
  - (* the region is outside the array: only for a negative size *)
    exists (mFrameInfo proxy). eexists. split; [|split; [|split; [reflexivity|]]].
    + intros i Hi. lia.
    + done.
    + cbn. by rewrite lookup_insert_eq.
  - eexists. eexists. split; [|split; [|split; [reflexivity|]]].
    + intros i Hi. rewrite region_copy_lookup by done.
      by rewrite bool_decide_eq_true_2.
    + intros i Hi. rewrite region_copy_lookup by done.
      by rewrite bool_decide_eq_false_2 by lia.
    + cbn. by rewrite lookup_insert_eq.
Qed.

Lemma syncAndDrawFrame_copies_then_draws_witness :
  ∃ (buf : list Z) (w' : World),
    (∀ i : nat, Z.of_nat i < 9 → buf !! i = [11; 12; 13; 14; 15; 16; 17; 18; 19] !! i)
    ∧ (∀ i : nat, 9 ≤ Z.of_nat i → buf !! i = mFrameInfo sample_proxy !! i)
    ∧ android_view_ThreadedRenderer_syncAndDrawFrame (H := sample_hwui)
        4096 [11; 12; 13; 14; 15; 16; 17; 18; 19] 9 sample_world
      = Returned
          (DrawFrameTask_drawFrame (Libhwui := sample_hwui)
             (mk_RenderProxy buf (mFrameMetricsObservers sample_proxy))).1 w'
    ∧ w_proxies w' !! 4096
      = Some (DrawFrameTask_drawFrame (Libhwui := sample_hwui)
                (mk_RenderProxy buf (mFrameMetricsObservers sample_proxy))).2
    ∧ w_trace w' = w_trace sample_world.
Proof.
  apply (syncAndDrawFrame_copies_then_draws (H := sample_hwui)
           4096 sample_proxy [11; 12; 13; 14; 15; 16; 17; 18; 19] 9 sample_world).
  - reflexivity.
  - reflexivity.
  - cbn. lia.
Defined.

(** X5. An array shorter than [frameInfoSize] is not copied at all: the JNI
    call raises instead, the proxy's buffer keeps its content, and the frame
    is drawn from it. *)
Remark syncAndDrawFrame_short_array `{Libhwui}
    (proxyPtr : Z) (proxy : RenderProxy) (frameInfo : jlongArray) (w : World) :
  w_proxies w !! proxyPtr = Some proxy →
  Z.of_nat (length frameInfo) < UI_THREAD_FRAME_INFO_SIZE →
  ∃ w',
    android_view_ThreadedRenderer_syncAndDrawFrame
      proxyPtr frameInfo UI_THREAD_FRAME_INFO_SIZE w
    = Returned (DrawFrameTask_drawFrame proxy).1 w'
    ∧ w_exception w' = Some "java/lang/ArrayIndexOutOfBoundsException"%string.
Proof.
  intros Hp Hshort.
  unfold android_view_ThreadedRenderer_syncAndDrawFrame.
  rewrite bool_decide_eq_false_2 by (intros Hne; by apply Hne).
  unfold RenderProxy_syncAndDrawFrame, GetLongArrayRegion, deref_proxy. run.
  rewrite Hp. rewrite bool_decide_eq_true_2 by lia. run.
  rewrite lookup_insert_eq. cbn. destruct proxy. eauto.
Qed.

(** ** nCreateHardwareBitmap *)

Lemma emitted_app (w w' : World) (es : list event) :
  w_trace w' = w_trace w ++ es → emitted w w' = es.
Proof. intros Ht. unfold emitted. rewrite Ht. apply drop_app_length. Qed.

Lemma to_uint32_jint (z : Z) : 0 < z < 2 ^ 31 → to_uint32 z = z.
Proof. intros Hz. unfold to_uint32. apply Z.mod_small. lia. Qed.

(** With a width or height that is not positive the call logs a warning and
    returns null. *)
Lemma createHardwareBitmap_invalid_run `{Libhwui}
    (renderNodePtr jwidth jheight : Z) (w : World) :
  jwidth ≤ 0 ∨ jheight ≤ 0 →
  android_view_ThreadedRenderer_createHardwareBitmapFromRenderNode
    renderNodePtr jwidth jheight w
  = Returned None
      (set_trace (w_trace w ++ [Ev.ALOGW "Invalid width %d or height %d"
                                  [jwidth; jheight]]) w).
Proof.
  intros Hdim.
  unfold android_view_ThreadedRenderer_createHardwareBitmapFromRenderNode.
  by rewrite bool_decide_eq_true_2 by done.
Qed.

(** C4. With [jwidth <= 0] or [jheight <= 0] the call returns null; all it
    does is log a warning: no buffer queue, consumer, surface or proxy is
    made. *)
Theorem createHardwareBitmap_invalid_dimensions `{Libhwui}
    (renderNodePtr jwidth jheight : Z) (w : World) :
  jwidth ≤ 0 ∨ jheight ≤ 0 →
  ∃ w',
    android_view_ThreadedRenderer_createHardwareBitmapFromRenderNode
      renderNodePtr jwidth jheight w = Returned None w'
    ∧ emitted w w' = [Ev.ALOGW "Invalid width %d or height %d" [jwidth; jheight]]
    ∧ count is_creation (emitted w w') = 0%nat.
Proof.
  intros Hdim. eexists. split.
  { by apply createHardwareBitmap_invalid_run. }
  erewrite emitted_app by reflexivity. done.
Qed.

Lemma createHardwareBitmap_invalid_dimensions_witness :
  ∃ w',
    android_view_ThreadedRenderer_createHardwareBitmapFromRenderNode
      (H := sample_hwui) 7 0 16 sample_world = Returned None w'
    ∧ emitted sample_world w' = [Ev.ALOGW "Invalid width %d or height %d" [0; 16]]
    ∧ count is_creation (emitted sample_world w') = 0%nat.
Proof.
  apply (createHardwareBitmap_invalid_dimensions (H := sample_hwui)
           7 0 16 sample_world).
  left. lia.
Defined.

(** The result and the trace of a snapshot with valid dimensions, by what the
    consumer delivers. *)
Lemma createHardwareBitmap_run `{Libhwui}
    (renderNodePtr jwidth jheight : Z) (w : World) :
  0 < jwidth → 0 < jheight →
  let width := to_uint32 jwidth in
  let height := to_uint32 jheight in
  let err := (w_acquireBuffer w).1 in
  let bufferItem := (w_acquireBuffer w).2 in
  let pre := snapshot_prefix renderNodePtr width height (w_systemTime w) err in
  android_view_ThreadedRenderer_createHardwareBitmapFromRenderNode
    renderNodePtr jwidth jheight w
  = if bool_decide (err ≠ OK) then
      Returned None
        (set_trace (w_trace w ++ pre
                      ++ [Ev.ALOGW "Failed to acquireBuffer, error %d (%s)" [err]]) w)
    else
      match mGraphicBuffer bufferItem with
      | None =>
          Returned None
            (set_trace (w_trace w ++ pre
                          ++ [Ev.releaseBuffer; Ev.ALOGW "GraphicBuffer is null?" []]) w)
      | Some buffer =>
          Returned
            (Some (mk_JavaBitmap
                     (mk_Bitmap buffer (PixelFormatToColorType (getPixelFormat buffer))
                        (Some (default MakeSRGB
                                 (DataSpaceToColorSpace (mDataSpace bufferItem)))))
                     kBitmapCreateFlag_Premultiplied))
            (set_trace
               (w_trace w ++ pre ++ Ev.releaseBuffer ::
                  (if bool_decide (getWidth buffer ≠ width ∨ getHeight buffer ≠ height)
                   then [Ev.ALOGW "GraphicBuffer size mismatch, got %dx%d expected %dx%d"
                           [getWidth buffer; getHeight buffer; width; height]]
                   else [])) w)
      end.
Proof.
  intros Hw Hh. cbn zeta.
  unfold android_view_ThreadedRenderer_createHardwareBitmapFromRenderNode.
  rewrite bool_decide_eq_false_2 by lia.
  unfold acquireBuffer, systemTime, createBitmap, Bitmap_createFrom,
    snapshot_prefix, default.
  run. case_bool_decide as Herr; run.
  - by rewrite <- !app_assoc.
  - destruct (mGraphicBuffer _) as [buffer|]; run.
    + case_bool_decide; run; rewrite <- !app_assoc; cbn [app];
        by destruct (DataSpaceToColorSpace _).
    + by rewrite <- !app_assoc.
Qed.

(** C3, as stated, fails: asked for 1 x 1 while the consumer delivers a
    2 x 2 buffer, the call returns a bitmap on that 2 x 2 buffer. *)
Lemma createHardwareBitmap_size_mismatch_returned :
  ¬ returns_null_or_requested_size (H := sample_hwui) 7 1 1 sample_world.
Proof.
  unfold returns_null_or_requested_size.
  rewrite createHardwareBitmap_run by lia.
  cbn. intros [Hwidth _]. discriminate Hwidth.
Qed.

(** C3, amended. For a positive width and height the call returns.  The
    result is null exactly when [acquireBuffer] fails or delivers no buffer;
    otherwise it is a bitmap on the very buffer the consumer delivered.
    That buffer has the requested width and height, or else the mismatch is
    logged as a warning and the bitmap is returned all the same. *)
Theorem createHardwareBitmap_returns_acquired_buffer `{Libhwui}
    (renderNodePtr jwidth jheight : Z) (w : World) :
  0 < jwidth < 2 ^ 31 → 0 < jheight < 2 ^ 31 →
  ∃ (result : option JavaBitmap) (w' : World),
    android_view_ThreadedRenderer_createHardwareBitmapFromRenderNode
      renderNodePtr jwidth jheight w = Returned result w'
    ∧ match result with
      | None =>
          (w_acquireBuffer w).1 ≠ OK
          ∨ mGraphicBuffer (w_acquireBuffer w).2 = None
      | Some jb =>
          let buffer := bm_buffer (jb_native jb) in
          (w_acquireBuffer w).1 = OK
          ∧ mGraphicBuffer (w_acquireBuffer w).2 = Some buffer
          ∧ ((getWidth buffer = jwidth ∧ getHeight buffer = jheight)
             ∨ Ev.ALOGW "GraphicBuffer size mismatch, got %dx%d expected %dx%d"
                 [getWidth buffer; getHeight buffer; jwidth; jheight]
               ∈ emitted w w')
      end.
Proof.
  intros Hw Hh. rewrite createHardwareBitmap_run by lia.
  rewrite !to_uint32_jint by done.
  case_bool_decide as Herr.
  - eexists None, _. split; [reflexivity|]. by left.
  - destruct (mGraphicBuffer (w_acquireBuffer w).2) as [buffer|] eqn:Hbuf.
    + eexists (Some _), _. split; [reflexivity|]. cbn.
      split; [by destruct (decide ((w_acquireBuffer w).1 = OK))|].
      split; [done|].
      erewrite emitted_app by reflexivity.
      case_bool_decide as Hsize.
      * right. apply list_elem_of_In. cbn. tauto.
      * left. lia.
    + eexists None, _. split; [reflexivity|]. by right.
Qed.

Lemma createHardwareBitmap_returns_acquired_buffer_witness :
  ∃ (result : option JavaBitmap) (w' : World),
    android_view_ThreadedRenderer_createHardwareBitmapFromRenderNode
      (H := sample_hwui) 7 2 2 sample_world = Returned result w'
    ∧ match result with
      | None =>
          (w_acquireBuffer sample_world).1 ≠ OK
          ∨ mGraphicBuffer (w_acquireBuffer sample_world).2 = None
      | Some jb =>
          let buffer := bm_buffer (jb_native jb) in
          (w_acquireBuffer sample_world).1 = OK
          ∧ mGraphicBuffer (w_acquireBuffer sample_world).2 = Some buffer
          ∧ ((getWidth buffer = 2 ∧ getHeight buffer = 2)
             ∨ Ev.ALOGW "GraphicBuffer size mismatch, got %dx%d expected %dx%d"
                 [getWidth buffer; getHeight buffer; 2; 2]
               ∈ emitted sample_world w')
      end.
Proof.
  apply (createHardwareBitmap_returns_acquired_buffer (H := sample_hwui)
           7 2 2 sample_world); lia.
Defined.

(** C10. A bitmap that the call returns has a colour space: the one the
    buffer's data space maps to, and sRGB when it maps to none. *)
Theorem createHardwareBitmap_color_space `{Libhwui}
    (renderNodePtr jwidth jheight : Z) (w w' : World) (jb : JavaBitmap) :
  android_view_ThreadedRenderer_createHardwareBitmapFromRenderNode
    renderNodePtr jwidth jheight w = Returned (Some jb) w' →
  bm_colorSpace (jb_native jb) ≠ None
  ∧ (DataSpaceToColorSpace (mDataSpace (w_acquireBuffer w).2) = None →
     bm_colorSpace (jb_native jb) = Some MakeSRGB)
  ∧ (∀ cs, DataSpaceToColorSpace (mDataSpace (w_acquireBuffer w).2) = Some cs →
     bm_colorSpace (jb_native jb) = Some cs).
Proof.
  intros Hrun.
  destruct (decide (jwidth ≤ 0 ∨ jheight ≤ 0)) as [Hdim|Hdim].
  - rewrite createHardwareBitmap_invalid_run in Hrun by done.
    discriminate Hrun.
  - rewrite createHardwareBitmap_run in Hrun by lia.
    case_bool_decide; [discriminate Hrun|].
    destruct (mGraphicBuffer (w_acquireBuffer w).2); [|discriminate Hrun].
    injection Hrun as <- _. cbn.
    split; [done|]. split.
    + by intros ->.
    + by intros cs ->.
Qed.

Lemma createHardwareBitmap_color_space_witness :
  ∃ (jb : JavaBitmap) (w' : World),
    android_view_ThreadedRenderer_createHardwareBitmapFromRenderNode
      (H := sample_hwui) 7 2 2 sample_world = Returned (Some jb) w'
    ∧ bm_colorSpace (jb_native jb) = Some MakeSRGB.
Proof.
  eexists _, _. split.
  - vm_compute. reflexivity.
  - refine (proj1 (proj2 (createHardwareBitmap_color_space (H := sample_hwui)
                            7 2 2 sample_world _ _ _)) _).
    + vm_compute. reflexivity.
    + reflexivity.
Defined.

(** ** nOverrideProperty *)

(** The events of [nOverrideProperty], whose buffers are allocated at [brk]
    and [brk + 1]. *)
Lemma overrideProperty_run (name value : jstring) (w : World) :
  ∃ w',
    android_view_ThreadedRenderer_overrideProperty name value w = Returned () w'
    ∧ w_trace w'
      = w_trace w ++
        [Ev.GetStringUTFChars name (w_brk w);
         Ev.GetStringUTFChars value (w_brk w + 1)%positive;
         Ev.overrideProperty (w_brk w) (w_brk w + 1)%positive;
         Ev.ReleaseStringUTFChars name (w_brk w);
         Ev.ReleaseStringUTFChars name (w_brk w + 1)%positive]
    ∧ w_heap w' !! w_brk w = None
    ∧ w_heap w' !! (w_brk w + 1)%positive = None.
Proof.
  unfold android_view_ThreadedRenderer_overrideProperty,
    GetStringUTFChars, ReleaseStringUTFChars, load.
  run. rewrite lookup_insert_ne by lia. rewrite lookup_insert_eq.
  run. rewrite lookup_delete_ne by lia. rewrite lookup_insert_eq.
  run. eexists. split; [reflexivity|]. cbn.
  split; [by rewrite <- !app_assoc|]. split.
  - rewrite lookup_delete_ne by lia. apply lookup_delete_eq.
  - apply lookup_delete_eq.
Qed.

(** C9. What [nOverrideProperty] does: both buffers are obtained, handed to
    [RenderProxy::overrideProperty] and released once each; but the buffer
    obtained from [value], at [w_brk w + 1], is released against [name]. *)
Theorem overrideProperty_releases_value_against_name
    (name value : jstring) (w : World) :
  ∃ w',
    android_view_ThreadedRenderer_overrideProperty name value w = Returned () w'
    ∧ emitted w w'
      = [Ev.GetStringUTFChars name (w_brk w);
         Ev.GetStringUTFChars value (w_brk w + 1)%positive;
         Ev.overrideProperty (w_brk w) (w_brk w + 1)%positive;
         Ev.ReleaseStringUTFChars name (w_brk w);
         Ev.ReleaseStringUTFChars name (w_brk w + 1)%positive].
Proof.
  destruct (overrideProperty_run name value w) as (w' & Hrun & Ht & _).
  exists w'. split; [exact Hrun|]. by apply emitted_app.
Qed.

(** For two different strings the releases of [nOverrideProperty] are not
    paired with the strings the buffers came from. *)
Lemma overrideProperty_not_paired (name value : jstring) (w : World) :
  name ≠ value →
  ¬ releases_paired
      (emitted w (world_of (android_view_ThreadedRenderer_overrideProperty
                              name value w))).
Proof.
  intros Hne Hpaired.
  destruct (overrideProperty_run name value w) as (w' & Hrun & Ht & _).
  rewrite Hrun in Hpaired. cbn [world_of] in Hpaired.
  rewrite (emitted_app _ _ _ Ht) in Hpaired.
  assert (Hin : Ev.GetStringUTFChars name (w_brk w + 1)%positive
                ∈ [Ev.GetStringUTFChars name (w_brk w);
                   Ev.GetStringUTFChars value (w_brk w + 1)%positive;
                   Ev.overrideProperty (w_brk w) (w_brk w + 1)%positive;
                   Ev.ReleaseStringUTFChars name (w_brk w);
                   Ev.ReleaseStringUTFChars name (w_brk w + 1)%positive]).
  { apply Hpaired, list_elem_of_In. cbn. tauto. }
  apply list_elem_of_In in Hin. cbn in Hin.
  destruct Hin as [Heq|[Heq|[Heq|[Heq|[Heq|[]]]]]]; try discriminate Heq.
  - injection Heq as Heq. lia.
  - injection Heq as Heq. by apply Hne.
Qed.

(** The sibling [setupShadersDiskCache] releases each buffer with the string
    it came from. *)
Lemma setupShadersDiskCache_paired (diskCachePath skiaDiskCachePath : jstring)
    (w : World) :
  ∃ w',
    android_view_ThreadedRenderer_setupShadersDiskCache
      diskCachePath skiaDiskCachePath w = Returned () w'
    ∧ releases_paired (emitted w w').
Proof.
  unfold android_view_ThreadedRenderer_setupShadersDiskCache,
    GetStringUTFChars, ReleaseStringUTFChars, load.
  run. rewrite lookup_insert_eq.
  run. rewrite lookup_insert_eq.
  run. eexists. split; [reflexivity|].
  unfold emitted. cbn [w_trace]. rewrite <- !app_assoc, drop_app_length.
  intros s chars Hin. apply list_elem_of_In in Hin. apply list_elem_of_In.
  cbn in *.
  destruct Hin as [Heq|[Heq|[Heq|[Heq|[Heq|[Heq|[]]]]]]];
    try discriminate Heq; injection Heq as -> ->; tauto.
Qed.

(** ** Environment handles *)

Lemma getenv_ok (vm : JavaVM) (w : World) :
  w_GetEnv w = JNI_OK → getenv (Some vm) w = Returned TheEnv w.
Proof.
  intros Hok. unfold getenv, GetEnv. run.
  by rewrite bool_decide_eq_false_2 by (intros Hne; by apply Hne).
Qed.

(** [getenv] does not return when [GetEnv] fails. *)
Lemma getenv_fatal (vm : JavaVM) (w : World) :
  w_GetEnv w ≠ JNI_OK →
  getenv (Some vm) w = Fatal "Failed to get JNIEnv for JavaVM: %p" w.
Proof.
  intros Hfail. unfold getenv, GetEnv. run.
  by rewrite bool_decide_eq_true_2.
Qed.

(** The start hook of the render thread aborts when [mJvm] was never set. *)
Lemma attachRenderThreadToJvm_fatal (name : string) (w : World) :
  w_mJvm w = None →
  attachRenderThreadToJvm name w = Fatal "No jvm but we set the hook??" w.
Proof.
  intros Hnull. unfold attachRenderThreadToJvm. run.
  by rewrite bool_decide_eq_true_2.
Qed.

(** With a VM stored, the hook attaches the thread and returns, whatever
    [AttachCurrentThreadAsDaemon] answers. *)
Lemma attachRenderThreadToJvm_attaches (name : string) (vm : JavaVM) (w : World) :
  w_mJvm w = Some vm →
  attachRenderThreadToJvm name w
  = Returned ()
      (set_trace (w_trace w ++ [Ev.AttachCurrentThreadAsDaemon JNI_VERSION_1_4 name]) w).
Proof.
  intros Hvm. unfold attachRenderThreadToJvm. run.
  by rewrite bool_decide_eq_false_2 by (rewrite Hvm; discriminate).
Qed.

(** X4. [nSetPictureCaptureCallback], [nSetFrameCallback] and
    [nAddFrameMetricsObserver] abort when [GetJavaVM] fails. *)
Lemma registration_GetJavaVM_fatal (proxyPtr : Z) (r : jref) (fso : jobject)
    (w : World) :
  w_GetJavaVM w ≠ JNI_OK →
  android_view_ThreadedRenderer_setPictureCapturedCallbackJNI proxyPtr (Some r) w
  = Fatal "Unable to get Java VM" w
  ∧ android_view_ThreadedRenderer_setFrameCallback proxyPtr (Some r) w
    = Fatal "Unable to get Java VM" w
  ∧ android_view_ThreadedRenderer_addFrameMetricsObserver proxyPtr fso w
    = Fatal "Unable to get Java VM" w.
Proof.
  intros Hfail.
  unfold android_view_ThreadedRenderer_setPictureCapturedCallbackJNI,
    android_view_ThreadedRenderer_setFrameCallback,
    android_view_ThreadedRenderer_addFrameMetricsObserver, GetJavaVM.
  run. by rewrite !bool_decide_eq_true_2.
Qed.

(** C8. [nSetFrameCompleteCallback] with a [GetJavaVM] that fails: the
    status is not looked at, the call returns, and the proxy is handed a
    lambda whose wrapper holds no VM. *)
Theorem setFrameCompleteCallback_GetJavaVM_unchecked :
  android_view_ThreadedRenderer_setFrameCompleteCallback
    4096 (Some (LocalRef 7)) no_vm_world
  = Returned ()
      (set_trace
         [Ev.NewGlobalRef (LocalRef 7) (Some (GlobalRef 1 7));
          Ev.Proxy 4096 (Proxy_setFrameCompleteCallback (Some 1%positive))]
         (set_heap {[ 1%positive := FrameCompleteWrapper_obj None (Some (GlobalRef 1 7)) ]}
            (set_brk 2 (set_next_global 2 (set_global_room 7 no_vm_world))))).
Proof. vm_compute. reflexivity. Qed.

(** When that lambda is called, [getenv] is entered with the unset pointer. *)
Lemma onFrameComplete_without_vm (this : positive) (ref : jref) (frameNr : Z)
    (w : World) :
  w_heap w !! this = Some (FrameCompleteWrapper_obj None (Some ref)) →
  FrameCompleteWrapper_onFrameComplete this frameNr w = Undefined w.
Proof.
  intros Hthis. unfold FrameCompleteWrapper_onFrameComplete, load, getenv.
  run. by rewrite Hthis.
Qed.

(** ** FrameCompleteWrapper *)

Section FrameCompleteWrapper.
Variables (this : positive) (vm : JavaVM) (ref : jref).

(** The first [onFrameComplete] calls the listener and releases the
    reference at once. *)
Lemma onFrameComplete_fires (frameNr : Z) (w : World) :
  w_heap w !! this = Some (FrameCompleteWrapper_obj (Some vm) (Some ref)) →
  w_GetEnv w = JNI_OK →
  FrameCompleteWrapper_onFrameComplete this frameNr w
  = Returned ()
      (set_heap (<[this := FrameCompleteWrapper_obj (Some vm) None]> (w_heap w))
         (set_global_room (S (w_global_room w))
            (set_trace (w_trace w ++ [Ev.CallVoidMethod (Some ref) onFrameComplete frameNr;
                                      Ev.DeleteGlobalRef (Some ref)]) w))).
Proof.
  intros Hthis Hok.
  unfold FrameCompleteWrapper_onFrameComplete,
    FrameCompleteWrapper_releaseObject, CallVoidMethod, DeleteGlobalRef, load.
  run. rewrite Hthis. rewrite (getenv_ok vm w Hok). run.
  rewrite Hthis. unfold getenv, GetEnv. run.
  rewrite bool_decide_eq_false_2 by (intros Hne; by apply Hne).
  by rewrite <- app_assoc.
Qed.

(** Once the reference is released, [onFrameComplete] does nothing. *)
Lemma onFrameComplete_released (mVm : option JavaVM) (frameNr : Z) (w : World) :
  w_heap w !! this = Some (FrameCompleteWrapper_obj mVm None) →
  FrameCompleteWrapper_onFrameComplete this frameNr w = Returned () w.
Proof.
  intros Hthis. unfold FrameCompleteWrapper_onFrameComplete, load. run.
  by rewrite Hthis.
Qed.

Lemma for_each_onFrameComplete_released (mVm : option JavaVM) (frames : list Z)
    (w : World) :
  w_heap w !! this = Some (FrameCompleteWrapper_obj mVm None) →
  for_each (FrameCompleteWrapper_onFrameComplete this) frames w = Returned () w.
Proof.
  intros Hthis. induction frames as [|frameNr frames IH]; [done|].
  cbn [for_each].
  erewrite bind_returned by (by eapply onFrameComplete_released).
  exact IH.
Qed.

(** Destroying a wrapper that never fired releases the reference. *)
Lemma delete_FrameCompleteWrapper_unfired (w : World) :
  w_heap w !! this = Some (FrameCompleteWrapper_obj (Some vm) (Some ref)) →
  w_GetEnv w = JNI_OK →
  delete_FrameCompleteWrapper this w
  = Returned ()
      (set_heap (delete this (w_heap w))
         (set_global_room (S (w_global_room w))
            (set_trace (w_trace w ++ [Ev.DeleteGlobalRef (Some ref)]) w))).
Proof.
  intros Hthis Hok.
  unfold delete_FrameCompleteWrapper, FrameCompleteWrapper_dtor,
    FrameCompleteWrapper_releaseObject, DeleteGlobalRef, load, getenv, GetEnv.
  run. rewrite Hthis. run.
  rewrite bool_decide_eq_false_2 by (intros Hne; by apply Hne).
  by rewrite delete_insert_eq.
Qed.

(** Destroying a wrapper that fired releases nothing. *)
Lemma delete_FrameCompleteWrapper_fired (mVm : option JavaVM) (w : World) :
  w_heap w !! this = Some (FrameCompleteWrapper_obj mVm None) →
  delete_FrameCompleteWrapper this w
  = Returned () (set_heap (delete this (w_heap w)) w).
Proof.
  intros Hthis.
  unfold delete_FrameCompleteWrapper, FrameCompleteWrapper_dtor,
    FrameCompleteWrapper_releaseObject, load.
  run. by rewrite Hthis.
Qed.

(** On a thread that [GetEnv] rejects, the first use of the reference ends
    the process: nothing is called and nothing released. *)
Lemma FrameCompleteWrapper_life_detached (frames : list Z) (w : World) :
  w_heap w !! this = Some (FrameCompleteWrapper_obj (Some vm) (Some ref)) →
  w_GetEnv w ≠ JNI_OK →
  FrameCompleteWrapper_life this frames w
  = Fatal "Failed to get JNIEnv for JavaVM: %p" w.
Proof.
  intros Hthis Hfail. unfold FrameCompleteWrapper_life.
  destruct frames as [|frameNr frames]; cbn [for_each];
    unfold delete_FrameCompleteWrapper, FrameCompleteWrapper_dtor,
      FrameCompleteWrapper_onFrameComplete, FrameCompleteWrapper_releaseObject,
      load, getenv, GetEnv;
    run; rewrite Hthis; run; by rewrite bool_decide_eq_true_2.
Qed.

(** The whole life of a wrapper, by whether it ever fires. *)
Lemma FrameCompleteWrapper_life_run (frames : list Z) (w : World) :
  w_heap w !! this = Some (FrameCompleteWrapper_obj (Some vm) (Some ref)) →
  w_GetEnv w = JNI_OK →
  FrameCompleteWrapper_life this frames w
  = Returned ()
      (set_heap (delete this (w_heap w))
         (set_global_room (S (w_global_room w))
            (set_trace
               (w_trace w ++
                  match frames with
                  | [] => [Ev.DeleteGlobalRef (Some ref)]
                  | frameNr :: _ =>
                      [Ev.CallVoidMethod (Some ref) onFrameComplete frameNr;
                       Ev.DeleteGlobalRef (Some ref)]
                  end) w))).
Proof.
  intros Hthis Hok. unfold FrameCompleteWrapper_life.
  destruct frames as [|frameNr frames].
  - cbn [for_each]. erewrite bind_returned by reflexivity.
    by apply delete_FrameCompleteWrapper_unfired.
  - cbn [for_each].
    erewrite bind_returned; cycle 1.
    { erewrite bind_returned by (by apply onFrameComplete_fires).
      eapply for_each_onFrameComplete_released. cbn.
      apply lookup_insert_eq. }
    erewrite delete_FrameCompleteWrapper_fired by (cbn; apply lookup_insert_eq).
    cbn. by rewrite delete_insert_eq.
Qed.

End FrameCompleteWrapper.

(** C5. A [FrameCompleteWrapper] that holds a listener receives
    [onFrameComplete] for each of [frames] and is then destroyed.  The
    listener is called at most once, with the first frame; its global
    reference is released exactly once, right after that call, or by the
    destructor when there was no call; and every [onFrameComplete] after the
    first leaves the world as it is. *)
Theorem FrameCompleteWrapper_single_shot
    (this : positive) (vm : JavaVM) (ref : jref) (frames : list Z) (w : World) :
  w_heap w !! this = Some (FrameCompleteWrapper_obj (Some vm) (Some ref)) →
  w_GetEnv w = JNI_OK →
  ∃ w',
    FrameCompleteWrapper_life this frames w = Returned () w'
    ∧ emitted w w'
      = match frames with
        | [] => [Ev.DeleteGlobalRef (Some ref)]
        | frameNr :: _ =>
            [Ev.CallVoidMethod (Some ref) onFrameComplete frameNr;
             Ev.DeleteGlobalRef (Some ref)]
        end
    ∧ (count is_call (emitted w w') ≤ 1)%nat
    ∧ count (is_DeleteGlobalRef (Some ref)) (emitted w w') = 1%nat
    ∧ w_heap w' !! this = None
    ∧ ∀ frameNr rest, frames = frameNr :: rest →
        ∃ w1,
          FrameCompleteWrapper_onFrameComplete this frameNr w = Returned () w1
          ∧ for_each (FrameCompleteWrapper_onFrameComplete this) rest w1
            = Returned () w1.
Proof.
  intros Hthis Hok. eexists. split.
  { by apply (FrameCompleteWrapper_life_run this vm ref). }
  erewrite emitted_app by reflexivity.
  split; [done|]. split; [|split; [|split]].
  - unfold count. destruct frames; cbn; lia.
  - unfold count. destruct frames; cbn; by rewrite bool_decide_eq_true_2.
  - cbn. apply lookup_delete_eq.
  - intros frameNr rest ->. eexists. split.
    + by apply (onFrameComplete_fires this vm ref).
    + eapply for_each_onFrameComplete_released. cbn. apply lookup_insert_eq.
Qed.

Lemma FrameCompleteWrapper_single_shot_witness :
  ∃ w',
    FrameCompleteWrapper_life 1 [10; 11; 12] wrapper_world = Returned () w'
    ∧ emitted wrapper_world w'
      = [Ev.CallVoidMethod (Some (GlobalRef 1 7)) onFrameComplete 10;
         Ev.DeleteGlobalRef (Some (GlobalRef 1 7))]
    ∧ (count is_call (emitted wrapper_world w') ≤ 1)%nat
    ∧ count (is_DeleteGlobalRef (Some (GlobalRef 1 7))) (emitted wrapper_world w')
      = 1%nat
    ∧ w_heap w' !! 1%positive = None
    ∧ ∀ frameNr rest, [10; 11; 12] = frameNr :: rest →
        ∃ w1,
          FrameCompleteWrapper_onFrameComplete 1 frameNr wrapper_world
          = Returned () w1
          ∧ for_each (FrameCompleteWrapper_onFrameComplete 1) rest w1
            = Returned () w1.
Proof.
  apply (FrameCompleteWrapper_single_shot 1 TheVM (GlobalRef 1 7) [10; 11; 12]
           wrapper_world).
  - reflexivity.
  - reflexivity.
Defined.

(** ** Callbacks set through a lambda *)

Lemma count_app (p : event → bool) (t1 t2 : list event) :
  count p (t1 ++ t2) = (count p t1 + count p t2)%nat.
Proof. unfold count. by rewrite List.filter_app, length_app. Qed.

(** Passing null forwards [nullptr] to the proxy and does nothing else. *)
Lemma set_callback_null (k : callback_kind) (proxyPtr : Z) (proxy : RenderProxy)
    (w : World) :
  w_proxies w !! proxyPtr = Some proxy →
  set_callback k proxyPtr None w
  = Returned () (set_trace (w_trace w ++ [Ev.Proxy proxyPtr (forwarded k None)]) w).
Proof.
  intros Hp. destruct k; cbn [set_callback forwarded];
    unfold android_view_ThreadedRenderer_setPictureCapturedCallbackJNI,
      android_view_ThreadedRenderer_setFrameCallback,
      android_view_ThreadedRenderer_setFrameCompleteCallback,
      proxy_forward, deref_proxy;
    run; by rewrite Hp.
Qed.

(** Passing a listener makes one global reference to it, puts it in a new
    wrapper, and hands the proxy the lambda that captured the wrapper. *)
Lemma set_callback_listener (k : callback_kind) (proxyPtr : Z) (proxy : RenderProxy)
    (r : jref) (w : World) :
  w_proxies w !! proxyPtr = Some proxy →
  w_GetJavaVM w = JNI_OK →
  (0 < w_global_room w)%nat →
  let ref := Some (GlobalRef (w_next_global w) (referent r)) in
  ∃ w1,
    set_callback k proxyPtr (Some r) w = Returned () w1
    ∧ w_trace w1
      = w_trace w ++ [Ev.NewGlobalRef r ref;
                      Ev.Proxy proxyPtr (forwarded k (Some (w_brk w)))]
    ∧ w_heap w1 !! w_brk w = Some (wrapper_obj k (Some TheVM) ref)
    ∧ w_brk w1 = (w_brk w + 1)%positive
    ∧ w_GetEnv w1 = w_GetEnv w.
Proof.
  intros Hp Hvm Hroom ref.
  destruct (w_global_room w) as [|room] eqn:Hr; [lia|].
  destruct k; cbn [set_callback forwarded wrapper_obj];
    unfold android_view_ThreadedRenderer_setPictureCapturedCallbackJNI,
      android_view_ThreadedRenderer_setFrameCallback,
      android_view_ThreadedRenderer_setFrameCompleteCallback,
      new_FrameCompleteWrapper, FrameCompleteWrapper_ctor,
      proxy_forward, deref_proxy, GetJavaVM, NewGlobalRef;
    repeat (run;
            first [ rewrite Hvm | rewrite Hr | rewrite Hp
                  | rewrite bool_decide_eq_true_2 by done
                  | rewrite bool_decide_eq_false_2
                      by (first [discriminate | intros Hne; by apply Hne]) ]);
    (eexists; split; [reflexivity|]);
    cbn; by rewrite <- app_assoc, lookup_insert_eq.
Qed.

(** A call of the frame lambda calls the listener through the reference the
    holder keeps. *)
Lemma FrameCallback_call_run (a : positive) (vm : JavaVM) (ref : jobject)
    (frameNr : Z) (w : World) :
  w_heap w !! a = Some (JGlobalRefHolder_obj (Some vm) ref) →
  w_GetEnv w = JNI_OK →
  FrameCallback_call a frameNr w
  = Returned () (set_trace (w_trace w ++ [Ev.CallVoidMethod ref onFrameDraw frameNr]) w).
Proof.
  intros Ha Hok. unfold FrameCallback_call, load, CallVoidMethod, getenv, GetEnv.
  run. rewrite Ha. run.
  by rewrite bool_decide_eq_false_2 by (intros Hne; by apply Hne).
Qed.

(** A call of the picture lambda wraps the picture in a new [Picture] and
    hands it to the listener. *)
Lemma PictureCapturedCallback_call_run (a : positive) (vm : JavaVM) (ref : jobject)
    (picture : Z) (w : World) :
  w_heap w !! a = Some (JGlobalRefHolder_obj (Some vm) ref) →
  w_GetEnv w = JNI_OK →
  PictureCapturedCallback_call a picture w
  = Returned ()
      (set_trace (w_trace w ++ [Ev.CallStaticVoidMethod
                                  invokePictureCapturedCallback (w_brk w) ref])
         (set_heap (<[w_brk w := Picture_obj picture]> (w_heap w))
            (set_brk (w_brk w + 1)%positive w))).
Proof.
  intros Ha Hok.
  unfold PictureCapturedCallback_call, load, CallStaticVoidMethod, getenv, GetEnv.
  run. rewrite Ha. run.
  by rewrite bool_decide_eq_false_2 by (intros Hne; by apply Hne).
Qed.

(** The calls of a lambda, for any number of them: what they emit, and what
    the captured wrapper holds afterwards. *)
Lemma callback_calls_run (k : callback_kind) (a : positive) (vm : JavaVM)
    (r : jref) (xs : list Z) (w : World) :
  w_heap w !! a = Some (wrapper_obj k (Some vm) (Some r)) →
  w_GetEnv w = JNI_OK →
  (a < w_brk w)%positive →
  ∃ w',
    for_each (callback_call k a) xs w = Returned () w'
    ∧ w_trace w' = w_trace w ++ calls_made k (Some r) (w_brk w) xs
    ∧ w_GetEnv w' = JNI_OK
    ∧ w_heap w' !! a
      = Some (wrapper_obj k (Some vm)
                match k, xs with
                | FrameComplete, _ :: _ => None
                | _, _ => Some r
                end).
Proof.
  destruct k; cbn [wrapper_obj].
  - (* picture *)
    revert w. induction xs as [|x xs IH]; intros w Ha Hok Hbrk.
    + exists w. cbn. by rewrite app_nil_r.
    + cbn [for_each callback_call calls_made].
      erewrite bind_returned
        by (by apply (PictureCapturedCallback_call_run a vm (Some r))).
      edestruct IH as (w' & Hrun & Ht & Hok' & Ha'); cycle 3.
      { exists w'. split; [exact Hrun|]. split; [|done].
        rewrite Ht. cbn. by rewrite <- app_assoc. }
      * cbn. rewrite lookup_insert_ne by lia. exact Ha.
      * exact Hok.
      * cbn. lia.
  - (* frame *)
    revert w. induction xs as [|x xs IH]; intros w Ha Hok Hbrk.
    + exists w. cbn. by rewrite app_nil_r.
    + cbn [for_each callback_call calls_made].
      erewrite bind_returned by (by apply (FrameCallback_call_run a vm (Some r))).
      edestruct IH as (w' & Hrun & Ht & Hok' & Ha'); cycle 3.
      { exists w'. split; [exact Hrun|]. split; [|done].
        rewrite Ht. cbn. by rewrite <- app_assoc. }
      * exact Ha.
      * exact Hok.
      * exact Hbrk.
  - (* frame complete *)
    intros Ha Hok Hbrk. destruct xs as [|x xs].
    + exists w. cbn. by rewrite app_nil_r.
    + cbn [for_each callback_call calls_made]. unfold FrameCompleteCallback_call.
      eexists. split.
      { erewrite bind_returned by (by apply (onFrameComplete_fires a vm r)).
        eapply for_each_onFrameComplete_released. cbn. apply lookup_insert_eq. }
      cbn. by rewrite lookup_insert_eq.
Qed.

(** Destroying a lambda whose wrapper still holds the reference releases it. *)
Lemma callback_destroy_holding (k : callback_kind) (a : positive) (vm : JavaVM)
    (r : jref) (w : World) :
  w_heap w !! a = Some (wrapper_obj k (Some vm) (Some r)) →
  w_GetEnv w = JNI_OK →
  ∃ w',
    callback_destroy k a w = Returned () w'
    ∧ w_trace w' = w_trace w ++ [Ev.DeleteGlobalRef (Some r)]
    ∧ w_heap w' !! a = None.
Proof.
  intros Ha Hok. destruct k; cbn [wrapper_obj callback_destroy] in *.
  1, 2: unfold delete_JGlobalRefHolder, JGlobalRefHolder_dtor, DeleteGlobalRef,
          load, getenv, GetEnv;
        run; rewrite Ha; run;
        rewrite bool_decide_eq_false_2 by (intros Hne; by apply Hne);
        eexists; split; [reflexivity|]; cbn; by rewrite lookup_delete_eq.
  eexists. split; [by apply (delete_FrameCompleteWrapper_unfired a vm r)|].
  cbn. by rewrite lookup_delete_eq.
Qed.

Lemma count_NewGlobalRef_calls_made (k : callback_kind) (ref : jobject)
    (brk : positive) (xs : list Z) :
  count is_NewGlobalRef (calls_made k ref brk xs) = 0%nat.
Proof.
  revert brk. induction xs as [|x xs IH]; intros brk; [done|].
  destruct k; cbn [calls_made]; [apply (IH (brk + 1)%positive)|apply (IH brk)|done].
Qed.

Lemma count_DeleteGlobalRef_calls_made (k : callback_kind) (ref : jobject)
    (brk : positive) (xs : list Z) :
  (count (is_DeleteGlobalRef ref) (calls_made k ref brk xs)
   + count (is_DeleteGlobalRef ref) (released_at_destruction k ref xs))%nat
  = 1%nat.
Proof.
  assert (Hself : bool_decide (ref = ref) = true) by by apply bool_decide_eq_true_2.
  destruct k.
  - cbn [released_at_destruction]. revert brk.
    induction xs as [|x xs IH]; intros brk.
    + unfold count. cbn. by rewrite Hself.
    + apply (IH (brk + 1)%positive).
  - cbn [released_at_destruction]. induction xs as [|x xs IH].
    + unfold count. cbn. by rewrite Hself.
    + apply IH.
  - destruct xs; unfold count; cbn; by rewrite Hself.
Qed.

(** C7, amended. For each of the three operations: a null callback is
    forwarded to the proxy as [nullptr] and nothing else happens; a listener
    is wrapped in exactly one new global reference, held by a new wrapper
    that the forwarded lambda captured.  Over the calls of the lambda and its
    destruction that reference is released exactly once: by the destructor
    of the [JGlobalRefHolder] for the picture and frame callbacks; for the
    frame-complete callback right after the first call, and by the
    destructor only when there was no call. *)
Theorem callback_registration_lifetime
    (k : callback_kind) (proxyPtr : Z) (proxy : RenderProxy) (r : jref)
    (xs : list Z) (w : World) :
  w_proxies w !! proxyPtr = Some proxy →
  w_GetJavaVM w = JNI_OK →
  w_GetEnv w = JNI_OK →
  (0 < w_global_room w)%nat →
  let ref := Some (GlobalRef (w_next_global w) (referent r)) in
  let a := w_brk w in
  set_callback k proxyPtr None w
  = Returned () (set_trace (w_trace w ++ [Ev.Proxy proxyPtr (forwarded k None)]) w)
  ∧ ∃ w1 w2 w3,
      set_callback k proxyPtr (Some r) w = Returned () w1
      ∧ emitted w w1 = [Ev.NewGlobalRef r ref; Ev.Proxy proxyPtr (forwarded k (Some a))]
      ∧ for_each (callback_call k a) xs w1 = Returned () w2
      ∧ emitted w1 w2 = calls_made k ref (w_brk w1) xs
      ∧ callback_destroy k a w2 = Returned () w3
      ∧ emitted w2 w3 = released_at_destruction k ref xs
      ∧ count is_NewGlobalRef (emitted w w3) = 1%nat
      ∧ count (is_DeleteGlobalRef ref) (emitted w w3) = 1%nat.
Proof.
  intros Hp Hvm Hok Hroom ref a. split.
  { by eapply set_callback_null. }
  destruct (set_callback_listener k proxyPtr proxy r w Hp Hvm Hroom)
    as (w1 & Hset & Ht1 & Ha1 & Hbrk1 & Hok1).
  rewrite Hok in Hok1.
  destruct (callback_calls_run k a TheVM (GlobalRef (w_next_global w) (referent r))
              xs w1 Ha1 Hok1) as (w2 & Hcalls & Ht2 & Hok2 & Ha2).
  { rewrite Hbrk1. subst a. lia. }
  assert (∃ w3, callback_destroy k a w2 = Returned () w3
                ∧ w_trace w3 = w_trace w2 ++ released_at_destruction k ref xs)
    as (w3 & Hdestroy & Ht3).
  { destruct k, xs as [|x xs']; cbn [wrapper_obj] in Ha2;
      try (match goal with
           | |- context [callback_destroy ?k _ _] =>
               destruct (callback_destroy_holding k a TheVM _ w2 Ha2 Hok2)
                 as (w3 & Hdestroy & Ht3 & _)
           end;
           exists w3; by split).
    eexists. split.
    - cbn [callback_destroy]. by eapply delete_FrameCompleteWrapper_fired.
    - cbn. by rewrite app_nil_r. }
  exists w1, w2, w3.
  split; [done|]. split; [by apply emitted_app|].
  split; [done|]. split; [by apply emitted_app|].
  split; [done|]. split; [by apply emitted_app|].
  erewrite (emitted_app w w3)
    by (rewrite Ht3, Ht2, Ht1, <- !app_assoc; reflexivity).
  rewrite !count_app. split.
  - rewrite count_NewGlobalRef_calls_made. unfold count.
    destruct k, xs; done.
  - rewrite count_DeleteGlobalRef_calls_made. unfold count. cbn.
    by destruct k.
Qed.

(** C7, as stated, fails for the frame-complete callback: its reference is
    released by the first call of the lambda, not by its destruction. *)
Lemma FrameComplete_released_before_destruction :
  ¬ released_when_destroyed FrameComplete 1 (Some (GlobalRef 1 7)) [10] wrapper_world.
Proof.
  unfold released_when_destroyed.
  cbn [for_each callback_call]. unfold FrameCompleteCallback_call.
  erewrite bind_returned
    by (by apply (onFrameComplete_fires 1 TheVM (GlobalRef 1 7))).
  cbn. intros [Hcount _]. discriminate Hcount.
Qed.

Lemma callback_registration_lifetime_witness :
  set_callback FrameDrawing 4096 None sample_world
  = Returned ()
      (set_trace (w_trace sample_world ++ [Ev.Proxy 4096 (forwarded FrameDrawing None)])
         sample_world)
  ∧ ∃ w1 w2 w3,
      set_callback FrameDrawing 4096 (Some (LocalRef 7)) sample_world
      = Returned () w1
      ∧ emitted sample_world w1
        = [Ev.NewGlobalRef (LocalRef 7) (Some (GlobalRef 1 7));
           Ev.Proxy 4096 (forwarded FrameDrawing (Some 1%positive))]
      ∧ for_each (callback_call FrameDrawing 1) [10; 11] w1 = Returned () w2
      ∧ emitted w1 w2
        = calls_made FrameDrawing (Some (GlobalRef 1 7)) (w_brk w1) [10; 11]
      ∧ callback_destroy FrameDrawing 1 w2 = Returned () w3
      ∧ emitted w2 w3
        = released_at_destruction FrameDrawing (Some (GlobalRef 1 7)) [10; 11]
      ∧ count is_NewGlobalRef (emitted sample_world w3) = 1%nat
      ∧ count (is_DeleteGlobalRef (Some (GlobalRef 1 7))) (emitted sample_world w3)
        = 1%nat.
Proof.
  apply (callback_registration_lifetime FrameDrawing 4096 sample_proxy
           (LocalRef 7) [10; 11] sample_world).
  - reflexivity.
  - reflexivity.
  - reflexivity.
  - cbn. lia.
Defined.

(** ** Frame-metrics observers *)

(** One [nAddFrameMetricsObserver]: a new native observer for [fso] is
    allocated, registered, and its address returned. *)
Lemma addFrameMetricsObserver_run (proxyPtr : Z) (proxy : RenderProxy)
    (fso : jobject) (w : World) :
  w_proxies w !! proxyPtr = Some proxy →
  w_GetJavaVM w = JNI_OK →
  android_view_ThreadedRenderer_addFrameMetricsObserver proxyPtr fso w
  = Returned (Z.pos (w_brk w))
      (set_proxies
         (<[proxyPtr := mk_RenderProxy (mFrameInfo proxy)
                          ({[Z.pos (w_brk w)]} ∪ mFrameMetricsObservers proxy)]>
            (w_proxies w))
         (set_heap (<[w_brk w := FrameMetricsObserverProxy_obj (Some TheVM) fso]>
                      (w_heap w))
            (set_brk (w_brk w + 1)%positive w))).
Proof.
  intros Hp Hvm.
  unfold android_view_ThreadedRenderer_addFrameMetricsObserver,
    RenderProxy_addFrameMetricsObserver, GetJavaVM, deref_proxy.
  run. rewrite Hvm.
  rewrite bool_decide_eq_false_2 by (intros Hne; by apply Hne).
  rewrite bool_decide_eq_true_2 by done.
  run. by rewrite Hp, Hvm.
Qed.

(** Registering the same native observer again does not add an entry. *)
Lemma RenderProxy_addFrameMetricsObserver_idempotent (proxyPtr : Z)
    (proxy : RenderProxy) (observer : Z) (w : World) :
  w_proxies w !! proxyPtr = Some proxy →
  observer ∈ mFrameMetricsObservers proxy →
  RenderProxy_addFrameMetricsObserver proxyPtr observer w = Returned () w.
Proof.
  intros Hp Hin. unfold RenderProxy_addFrameMetricsObserver, deref_proxy.
  run. rewrite Hp. run.
  rewrite (subseteq_union_1_L {[observer]} (mFrameMetricsObservers proxy))
    by (by apply singleton_subseteq_l).
  destruct proxy as [info observers]. cbn.
  by rewrite insert_id.
Qed.

(** Removing an observer that is not registered changes nothing. *)
Lemma removeFrameMetricsObserver_unregistered (proxyPtr : Z) (proxy : RenderProxy)
    (observerPtr : Z) (w : World) :
  w_proxies w !! proxyPtr = Some proxy →
  observerPtr ∉ mFrameMetricsObservers proxy →
  android_view_ThreadedRenderer_removeFrameMetricsObserver proxyPtr observerPtr w
  = Returned () w.
Proof.
  intros Hp Hfree.
  unfold android_view_ThreadedRenderer_removeFrameMetricsObserver,
    RenderProxy_removeFrameMetricsObserver, deref_proxy.
  run. rewrite Hp. run.
  rewrite difference_disjoint_L by (by apply disjoint_singleton_r).
  destruct proxy as [info observers]. cbn.
  by rewrite insert_id.
Qed.

(** C6, as stated, fails: registering the same observer twice leaves two
    entries for it. *)
Lemma addFrameMetricsObserver_twice_two_entries :
  ¬ one_entry_after_add_twice 4096 (Some (LocalRef 7)) sample_world.
Proof.
  unfold one_entry_after_add_twice. vm_compute. discriminate.
Qed.

(** C6, amended. Every [nAddFrameMetricsObserver] allocates a new native
    observer and registers that one: registering the same Java observer
    twice returns two different handles, and the registered set then holds
    both of them, each standing for that observer, next to what it held
    before.  Removing an observer that is not registered changes nothing
    and is no error. *)
Theorem addFrameMetricsObserver_registers_new_observer
    (proxyPtr : Z) (proxy : RenderProxy) (fso : jobject) (w : World) :
  w_proxies w !! proxyPtr = Some proxy →
  w_GetJavaVM w = JNI_OK →
  let o1 := Z.pos (w_brk w) in
  let o2 := Z.pos (w_brk w + 1) in
  (∃ w2 proxy2,
     add_twice proxyPtr fso w = Returned (o1, o2) w2
     ∧ o1 ≠ o2
     ∧ w_proxies w2 !! proxyPtr = Some proxy2
     ∧ mFrameMetricsObservers proxy2
       = {[o2]} ∪ ({[o1]} ∪ mFrameMetricsObservers proxy)
     ∧ o1 ∈ entries_for fso w2 proxyPtr
     ∧ o2 ∈ entries_for fso w2 proxyPtr)
  ∧ ∀ observerPtr,
      observerPtr ∉ mFrameMetricsObservers proxy →
      android_view_ThreadedRenderer_removeFrameMetricsObserver
        proxyPtr observerPtr w = Returned () w.
Proof.
  intros Hp Hvm o1 o2. split.
  - unfold add_twice.
    erewrite bind_returned by (by apply addFrameMetricsObserver_run).
    erewrite bind_returned
      by (apply addFrameMetricsObserver_run; [apply lookup_insert_eq|exact Hvm]).
    eexists _, _. split; [reflexivity|].
    split; [subst o1 o2; lia|].
    split; [apply lookup_insert_eq|].
    split; [reflexivity|].
    unfold entries_for. run. rewrite lookup_insert_eq.
    cbn [mFrameMetricsObservers].
    split; apply elem_of_filter;
      (split; [|rewrite !elem_of_union, !elem_of_singleton; naive_solver]);
      unfold observes; subst o1 o2; run.
    + rewrite lookup_insert_ne by lia. rewrite lookup_insert_eq.
      by apply bool_decide_eq_true_2.
    + rewrite lookup_insert_eq. by apply bool_decide_eq_true_2.
  - intros observerPtr Hfree.
    by apply (removeFrameMetricsObserver_unregistered proxyPtr proxy).
Qed.

Lemma addFrameMetricsObserver_registers_new_observer_witness :
  (∃ w2 proxy2,
     add_twice 4096 (Some (LocalRef 7)) sample_world = Returned (1, 2) w2
     ∧ 1 ≠ 2
     ∧ w_proxies w2 !! 4096 = Some proxy2
     ∧ mFrameMetricsObservers proxy2
       = {[2]} ∪ ({[1]} ∪ mFrameMetricsObservers sample_proxy)
     ∧ 1 ∈ entries_for (Some (LocalRef 7)) w2 4096
     ∧ 2 ∈ entries_for (Some (LocalRef 7)) w2 4096)
  ∧ ∀ observerPtr,
      observerPtr ∉ mFrameMetricsObservers sample_proxy →
      android_view_ThreadedRenderer_removeFrameMetricsObserver
        4096 observerPtr sample_world = Returned () sample_world.
Proof.
  apply (addFrameMetricsObserver_registers_new_observer
           4096 sample_proxy (Some (LocalRef 7)) sample_world).
  - reflexivity.
  - reflexivity.
Defined.

(** * Further properties *)

(** [run], with the setter of [mJvm]. *)
Ltac xrun :=
  cbv beta iota zeta delta
    [mbind M_bind mret M_ret gets modify emit undefined
     LOG_ALWAYS_FATAL_IF LOG_ALWAYS_FATAL write_proxy store free new
     set_global_room set_next_global set_exception set_brk set_heap
     set_proxies set_trace set_mJvm
     w_GetEnv w_GetJavaVM w_global_room w_next_global w_exception w_brk
     w_heap w_proxies w_mJvm w_systemTime w_acquireBuffer w_trace] in *;
  cbn [fst snd] in *.

(** ** The table of native methods *)

(** X1. No Java method is registered twice, no function is registered under
    two methods, and every function of the table's range is registered: the
    table is a one-to-one listing of the 54 native functions. *)
Theorem gMethods_one_to_one :
  NoDup (map (λ m, (jni_name m, jni_signature m)) gMethods)
  ∧ NoDup (map jni_fnPtr gMethods)
  ∧ (∀ f : Fn.t, f ∈ map jni_fnPtr gMethods)
  ∧ length gMethods = 54%nat.
Proof.
  split; [|split; [|split]].
  - apply (bool_decide_unpack _). vm_compute. exact I.
  - apply (bool_decide_unpack _). vm_compute. exact I.
  - intros f. apply list_elem_of_In. destruct f; vm_compute; tauto.
  - reflexivity.
Qed.

(** X2. Every signature of the table is a well-formed JNI method
    descriptor: it reads as parameter types and a return type, it is the
    descriptor of what was read, no parameter is [void] or an array of it,
    and every class is named in internal form.  The function registered
    under it has the matching header: [JNIEnv*], [jobject] or [jclass], one
    parameter of the carrying C++ type per parameter of the descriptor, and
    the carrying return type. *)
Theorem gMethods_descriptors_match_headers :
  Forall (λ m, ∃ (ts : list jtype) (ret : jtype),
            method_descriptor (jni_signature m) = Some (ts, ret)
            ∧ descriptor_string ts ret = jni_signature m
            ∧ forallb field_type_ok ts = true
            ∧ return_type_ok ret = true
            ∧ header_matches m = true) gMethods.
Proof.
  apply Forall_forall. intros m Hm. apply list_elem_of_In in Hm.
  revert m Hm. apply List.Forall_forall.
  repeat (constructor;
          [eexists _, _; split; [vm_compute; reflexivity|];
           repeat split; vm_compute; reflexivity|]).
  constructor.
Qed.

(** ** Threads that are not attached *)

(** X3. A callback on a thread for which [GetEnv] fails.  Calling the
    lambda and destroying it both end in [LOG_ALWAYS_FATAL] inside [getenv],
    before anything is done (no Java method is called, no reference
    released, no [Picture] allocated): always for a picture or a frame
    callback, also when its holder keeps a null reference, and for a
    frame-complete callback that still holds its reference.  A
    frame-complete callback that has fired holds none and does not reach
    [getenv]: a call returns with nothing changed, and the destruction
    returns with the wrapper freed and nothing else changed. *)
Theorem dispatch_on_detached_thread
    (k : callback_kind) (a : positive) (vm : JavaVM) (ref : jobject) (x : Z)
    (w : World) :
  w_heap w !! a = Some (wrapper_obj k (Some vm) ref) →
  w_GetEnv w ≠ JNI_OK →
  (k ≠ FrameComplete ∨ ref ≠ None →
   callback_call k a x w = Fatal "Failed to get JNIEnv for JavaVM: %p" w
   ∧ callback_destroy k a w = Fatal "Failed to get JNIEnv for JavaVM: %p" w)
  ∧ (k = FrameComplete → ref = None →
     callback_call k a x w = Returned () w
     ∧ callback_destroy k a w = Returned () (set_heap (delete a (w_heap w)) w)).
Proof.
  intros Ha Hfail. split.
  - intros Hholds.
    assert (match k, ref with FrameComplete, None => False | _, _ => True end)
      as Hcase by (destruct k, ref; tauto).
    destruct k, ref as [r|]; try done;
      cbn [wrapper_obj callback_call callback_destroy] in *;
      unfold PictureCapturedCallback_call, FrameCallback_call,
        FrameCompleteCallback_call, FrameCompleteWrapper_onFrameComplete,
        delete_JGlobalRefHolder, JGlobalRefHolder_dtor,
        delete_FrameCompleteWrapper, FrameCompleteWrapper_dtor,
        FrameCompleteWrapper_releaseObject, load, getenv, GetEnv;
      run; rewrite Ha; run; by rewrite bool_decide_eq_true_2.
  - intros -> ->. cbn [wrapper_obj callback_call callback_destroy] in *.
    unfold FrameCompleteCallback_call, FrameCompleteWrapper_onFrameComplete,
      delete_FrameCompleteWrapper, FrameCompleteWrapper_dtor,
      FrameCompleteWrapper_releaseObject, load, free.
    run. rewrite Ha. by run.
Qed.

Lemma dispatch_on_detached_thread_witness :
  (callback_call FrameComplete 1 10 detached_world
   = Fatal "Failed to get JNIEnv for JavaVM: %p" detached_world
   ∧ callback_destroy FrameComplete 1 detached_world
     = Fatal "Failed to get JNIEnv for JavaVM: %p" detached_world)
  ∧ (callback_call FrameComplete 1 10 fired_detached_world
     = Returned () fired_detached_world
     ∧ callback_destroy FrameComplete 1 fired_detached_world
       = Returned ()
           (set_heap (delete 1%positive (w_heap fired_detached_world))
              fired_detached_world)).
Proof.
  split.
  - apply (dispatch_on_detached_thread FrameComplete 1 TheVM
             (Some (GlobalRef 1 7)) 10 detached_world).
    + reflexivity.
    + vm_compute. discriminate.
    + right. discriminate.
  - apply (dispatch_on_detached_thread FrameComplete 1 TheVM
             None 10 fired_detached_world).
    + reflexivity.
    + vm_compute. discriminate.
    + reflexivity.
    + reflexivity.
Defined.

Lemma registration_GetJavaVM_fatal_witness :
  android_view_ThreadedRenderer_setPictureCapturedCallbackJNI
    4096 (Some (LocalRef 7)) no_vm_world
  = Fatal "Unable to get Java VM" no_vm_world
  ∧ android_view_ThreadedRenderer_setFrameCallback
      4096 (Some (LocalRef 7)) no_vm_world
    = Fatal "Unable to get Java VM" no_vm_world
  ∧ android_view_ThreadedRenderer_addFrameMetricsObserver
      4096 (Some (LocalRef 7)) no_vm_world
    = Fatal "Unable to get Java VM" no_vm_world.
Proof.
  apply (registration_GetJavaVM_fatal 4096 (LocalRef 7) (Some (LocalRef 7))
           no_vm_world).
  vm_compute. discriminate.
Defined.

Lemma syncAndDrawFrame_short_array_witness :
  ∃ w',
    android_view_ThreadedRenderer_syncAndDrawFrame (H := sample_hwui)
      4096 [1; 2; 3] 9 sample_world
    = Returned (DrawFrameTask_drawFrame (Libhwui := sample_hwui) sample_proxy).1 w'
    ∧ w_exception w' = Some "java/lang/ArrayIndexOutOfBoundsException"%string.
Proof.
  apply (syncAndDrawFrame_short_array (H := sample_hwui)
           4096 sample_proxy [1; 2; 3] sample_world).
  - reflexivity.
  - cbn. lia.
Defined.

(** ** A global reference table that is full *)

(** X6. When [NewGlobalRef] returns null, [nSetFrameCompleteCallback] ends in
    [LOG_ALWAYS_FATAL]: no wrapper is made and nothing is handed to the
    proxy, whether or not the proxy is alive. *)
Theorem setFrameCompleteCallback_without_reference_is_fatal
    (proxyPtr : Z) (r : jref) (w : World) :
  w_global_room w = 0%nat →
  android_view_ThreadedRenderer_setFrameCompleteCallback proxyPtr (Some r) w
  = Fatal "Failed to make global ref"
      (set_trace (w_trace w ++ [Ev.NewGlobalRef r None]) w).
Proof.
  intros Hroom.
  unfold android_view_ThreadedRenderer_setFrameCompleteCallback,
    new_FrameCompleteWrapper, FrameCompleteWrapper_ctor, GetJavaVM, NewGlobalRef.
  run. rewrite Hroom. run. rewrite bool_decide_eq_true_2 by done. run.
  by rewrite Hroom.
Qed.

Lemma setFrameCompleteCallback_without_reference_is_fatal_witness :
  android_view_ThreadedRenderer_setFrameCompleteCallback
    4096 (Some (LocalRef 7)) full_world
  = Fatal "Failed to make global ref"
      (set_trace (w_trace full_world ++ [Ev.NewGlobalRef (LocalRef 7) None])
         full_world).
Proof.
  apply (setFrameCompleteCallback_without_reference_is_fatal
           4096 (LocalRef 7) full_world).
  reflexivity.
Defined.

(** Destroying a holder whose reference is null deletes null. *)
Lemma delete_JGlobalRefHolder_null (a : positive) (vm : JavaVM) (w : World) :
  w_heap w !! a = Some (JGlobalRefHolder_obj (Some vm) None) →
  w_GetEnv w = JNI_OK →
  delete_JGlobalRefHolder a w
  = Returned ()
      (set_heap (delete a (w_heap w))
         (set_trace (w_trace w ++ [Ev.DeleteGlobalRef None]) w)).
Proof.
  intros Ha Hok.
  unfold delete_JGlobalRefHolder, JGlobalRefHolder_dtor, DeleteGlobalRef,
    load, getenv, GetEnv.
  run. rewrite Ha. run.
  rewrite bool_decide_eq_false_2 by (intros Hne; by apply Hne).
  by rewrite delete_insert_eq.
Qed.

(** With a full table the picture and frame registrations go on with a null
    reference. *)
Lemma set_callback_without_reference (k : callback_kind) (proxyPtr : Z)
    (proxy : RenderProxy) (r : jref) (w : World) :
  k ≠ FrameComplete →
  w_proxies w !! proxyPtr = Some proxy →
  w_GetJavaVM w = JNI_OK →
  w_global_room w = 0%nat →
  set_callback k proxyPtr (Some r) w
  = Returned ()
      (set_trace (w_trace w ++ [Ev.NewGlobalRef r None;
                                Ev.Proxy proxyPtr (forwarded k (Some (w_brk w)))])
         (set_heap (<[w_brk w := JGlobalRefHolder_obj (Some TheVM) None]> (w_heap w))
            (set_brk (w_brk w + 1)%positive w))).
Proof.
  intros Hk Hp Hvm Hroom.
  destruct k; [| |done]; cbn [set_callback forwarded];
    unfold android_view_ThreadedRenderer_setPictureCapturedCallbackJNI,
      android_view_ThreadedRenderer_setFrameCallback,
      proxy_forward, deref_proxy, GetJavaVM, NewGlobalRef;
    repeat (run;
            first [ rewrite Hvm | rewrite Hroom | rewrite Hp
                  | rewrite bool_decide_eq_true_2 by done
                  | rewrite bool_decide_eq_false_2
                      by (first [discriminate | intros Hne; by apply Hne]) ]);
    by rewrite <- app_assoc.
Qed.

(** X7. When [NewGlobalRef] returns null, [nSetPictureCaptureCallback] and
    [nSetFrameCallback] do not notice: they return and hand the proxy a
    lambda whose holder keeps a null reference.  A call of that lambda calls
    into Java with the null reference, and its destruction deletes null. *)
Theorem JGlobalRefHolder_without_reference
    (k : callback_kind) (proxyPtr : Z) (proxy : RenderProxy) (r : jref) (x : Z)
    (w : World) :
  k ≠ FrameComplete →
  w_proxies w !! proxyPtr = Some proxy →
  w_GetJavaVM w = JNI_OK →
  w_GetEnv w = JNI_OK →
  w_global_room w = 0%nat →
  ∃ w1 w2 w3,
    set_callback k proxyPtr (Some r) w = Returned () w1
    ∧ emitted w w1
      = [Ev.NewGlobalRef r None; Ev.Proxy proxyPtr (forwarded k (Some (w_brk w)))]
    ∧ w_heap w1 !! w_brk w = Some (JGlobalRefHolder_obj (Some TheVM) None)
    ∧ callback_call k (w_brk w) x w1 = Returned () w2
    ∧ emitted w1 w2 = calls_made k None (w_brk w1) [x]
    ∧ callback_destroy k (w_brk w) w2 = Returned () w3
    ∧ emitted w2 w3 = [Ev.DeleteGlobalRef None]
    ∧ w_global_room w3 = 0%nat.
Proof.
  intros Hk Hp Hvm Hok Hroom.
  destruct k; [| |done];
    (eexists _, _, _; split;
     [by apply (set_callback_without_reference _ proxyPtr proxy)|];
     split; [by apply emitted_app|];
     split; [cbn; apply lookup_insert_eq|];
     cbn [callback_call callback_destroy calls_made]).
  - split.
    { apply (PictureCapturedCallback_call_run _ TheVM None); cbn;
        [apply lookup_insert_eq|exact Hok]. }
    split. { by apply emitted_app. }
    split.
    { apply (delete_JGlobalRefHolder_null _ TheVM); cbn; [|exact Hok].
      rewrite lookup_insert_ne by lia. apply lookup_insert_eq. }
    split. { by apply emitted_app. }
    exact Hroom.
  - split.
    { apply (FrameCallback_call_run _ TheVM None); cbn;
        [apply lookup_insert_eq|exact Hok]. }
    split. { by apply emitted_app. }
    split.
    { apply (delete_JGlobalRefHolder_null _ TheVM); cbn; [|exact Hok].
      apply lookup_insert_eq. }
    split. { by apply emitted_app. }
    exact Hroom.
Qed.

Lemma JGlobalRefHolder_without_reference_witness :
  ∃ w1 w2 w3,
    set_callback FrameDrawing 4096 (Some (LocalRef 7)) full_world = Returned () w1
    ∧ emitted full_world w1
      = [Ev.NewGlobalRef (LocalRef 7) None;
         Ev.Proxy 4096 (forwarded FrameDrawing (Some (w_brk full_world)))]
    ∧ w_heap w1 !! w_brk full_world = Some (JGlobalRefHolder_obj (Some TheVM) None)
    ∧ callback_call FrameDrawing (w_brk full_world) 10 w1 = Returned () w2
    ∧ emitted w1 w2 = calls_made FrameDrawing None (w_brk w1) [10]
    ∧ callback_destroy FrameDrawing (w_brk full_world) w2 = Returned () w3
    ∧ emitted w2 w3 = [Ev.DeleteGlobalRef None]
    ∧ w_global_room w3 = 0%nat.
Proof.
  apply (JGlobalRefHolder_without_reference FrameDrawing 4096 sample_proxy
           (LocalRef 7) 10 full_world).
  - discriminate.
  - reflexivity.
  - reflexivity.
  - reflexivity.
  - reflexivity.
Defined.

(** ** What a callback leaves behind *)

(** A registration with a listener, in full. *)
Lemma set_callback_listener_world (k : callback_kind) (proxyPtr : Z)
    (proxy : RenderProxy) (r : jref) (room : nat) (w : World) :
  w_proxies w !! proxyPtr = Some proxy →
  w_GetJavaVM w = JNI_OK →
  w_global_room w = S room →
  let ref := Some (GlobalRef (w_next_global w) (referent r)) in
  set_callback k proxyPtr (Some r) w
  = Returned ()
      (set_trace (w_trace w ++ [Ev.NewGlobalRef r ref;
                                Ev.Proxy proxyPtr (forwarded k (Some (w_brk w)))])
         (set_heap (<[w_brk w := wrapper_obj k (Some TheVM) ref]> (w_heap w))
            (set_brk (w_brk w + 1)%positive
               (set_next_global (w_next_global w + 1)%positive
                  (set_global_room room w))))).
Proof.
  intros Hp Hvm Hroom ref.
  destruct k; cbn [set_callback forwarded wrapper_obj];
    unfold android_view_ThreadedRenderer_setPictureCapturedCallbackJNI,
      android_view_ThreadedRenderer_setFrameCallback,
      android_view_ThreadedRenderer_setFrameCompleteCallback,
      new_FrameCompleteWrapper, FrameCompleteWrapper_ctor,
      proxy_forward, deref_proxy, GetJavaVM, NewGlobalRef;
    repeat (run;
            first [ rewrite Hvm | rewrite Hroom | rewrite Hp
                  | rewrite bool_decide_eq_true_2 by done
                  | rewrite bool_decide_eq_false_2
                      by (first [discriminate | intros Hne; by apply Hne]) ]);
    by rewrite <- app_assoc.
Qed.

(** The calls of a lambda keep the table as it is, but for the first call of
    a frame-complete lambda, which gives its slot back. *)
Lemma callback_calls_room (k : callback_kind) (a : positive) (vm : JavaVM)
    (r : jref) (xs : list Z) (w : World) :
  w_heap w !! a = Some (wrapper_obj k (Some vm) (Some r)) →
  w_GetEnv w = JNI_OK →
  (a < w_brk w)%positive →
  ∃ w',
    for_each (callback_call k a) xs w = Returned () w'
    ∧ w_GetEnv w' = JNI_OK
    ∧ w_heap w' !! a
      = Some (wrapper_obj k (Some vm)
                match k, xs with
                | FrameComplete, _ :: _ => None
                | _, _ => Some r
                end)
    ∧ w_global_room w'
      = match k, xs with
        | FrameComplete, _ :: _ => S (w_global_room w)
        | _, _ => w_global_room w
        end.
Proof.
  destruct k; cbn [wrapper_obj].
  - revert w. induction xs as [|x xs IH]; intros w Ha Hok Hbrk.
    + by exists w.
    + cbn [for_each callback_call].
      erewrite bind_returned
        by (by apply (PictureCapturedCallback_call_run a vm (Some r))).
      edestruct IH as (w' & Hrun & Hok' & Ha' & Hroom'); cycle 3.
      { exists w'. split; [exact Hrun|]. split; [done|]. split; [|exact Hroom'].
        rewrite Ha'. by destruct xs. }
      * cbn. rewrite lookup_insert_ne by lia. exact Ha.
      * exact Hok.
      * cbn. lia.
  - revert w. induction xs as [|x xs IH]; intros w Ha Hok Hbrk.
    + by exists w.
    + cbn [for_each callback_call].
      erewrite bind_returned by (by apply (FrameCallback_call_run a vm (Some r))).
      edestruct IH as (w' & Hrun & Hok' & Ha' & Hroom'); cycle 3.
      { exists w'. split; [exact Hrun|]. split; [done|]. split; [|exact Hroom'].
        rewrite Ha'. by destruct xs. }
      * exact Ha.
      * exact Hok.
      * exact Hbrk.
  - intros Ha Hok Hbrk. destruct xs as [|x xs].
    + by exists w.
    + cbn [for_each callback_call]. unfold FrameCompleteCallback_call.
      eexists. split.
      { erewrite bind_returned by (by apply (onFrameComplete_fires a vm r)).
        eapply for_each_onFrameComplete_released. cbn. apply lookup_insert_eq. }
      cbn. by rewrite lookup_insert_eq.
Qed.

(** Destroying a lambda frees its wrapper, and gives the slot back if the
    wrapper still holds the reference. *)
Lemma callback_destroy_room (k : callback_kind) (a : positive) (vm : JavaVM)
    (ref : jobject) (w : World) :
  w_heap w !! a = Some (wrapper_obj k (Some vm) ref) →
  w_GetEnv w = JNI_OK →
  (k = FrameComplete ∨ ref ≠ None) →
  ∃ w',
    callback_destroy k a w = Returned () w'
    ∧ w_heap w' = delete a (w_heap w)
    ∧ w_global_room w'
      = match ref with
        | Some _ => S (w_global_room w)
        | None => w_global_room w
        end.
Proof.
  intros Ha Hok Hheld.
  destruct k, ref as [r|]; cbn [wrapper_obj callback_destroy] in *;
    try (destruct Hheld as [Hheld|Hheld]; done);
    unfold delete_JGlobalRefHolder, JGlobalRefHolder_dtor,
      delete_FrameCompleteWrapper, FrameCompleteWrapper_dtor,
      FrameCompleteWrapper_releaseObject, DeleteGlobalRef, load, getenv, GetEnv;
    run; rewrite Ha; run;
    rewrite ?bool_decide_eq_false_2 by (intros Hne; by apply Hne);
    eexists; (split; [reflexivity|]); cbn; by rewrite ?delete_insert_eq.
Qed.

(** X8. A callback leaves nothing behind.  Registering a listener takes one
    slot of the global reference table; after any number of calls of the
    lambda and its destruction the table has as much room as before the
    registration, and the wrapper is gone from the native heap. *)
Theorem callback_life_leaves_nothing_behind
    (k : callback_kind) (proxyPtr : Z) (proxy : RenderProxy) (r : jref)
    (xs : list Z) (w : World) :
  w_proxies w !! proxyPtr = Some proxy →
  w_GetJavaVM w = JNI_OK →
  w_GetEnv w = JNI_OK →
  (0 < w_global_room w)%nat →
  ∃ w1 w2 w3,
    set_callback k proxyPtr (Some r) w = Returned () w1
    ∧ for_each (callback_call k (w_brk w)) xs w1 = Returned () w2
    ∧ callback_destroy k (w_brk w) w2 = Returned () w3
    ∧ S (w_global_room w1) = w_global_room w
    ∧ w_global_room w3 = w_global_room w
    ∧ w_heap w3 !! w_brk w = None.
Proof.
  intros Hp Hvm Hok Hroom.
  destruct (w_global_room w) as [|room] eqn:Hr; [lia|].
  pose proof (set_callback_listener_world k proxyPtr proxy r room w Hp Hvm Hr)
    as Hset. cbn zeta in Hset.
  match type of Hset with _ = Returned () ?W => set (w1 := W) in * end.
  destruct (callback_calls_room k (w_brk w) TheVM
              (GlobalRef (w_next_global w) (referent r)) xs w1)
    as (w2 & Hcalls & Hok2 & Ha2 & Hroom2).
  { subst w1. cbn. apply lookup_insert_eq. }
  { exact Hok. }
  { subst w1. cbn. lia. }
  destruct (callback_destroy_room k (w_brk w) TheVM _ w2 Ha2 Hok2)
    as (w3 & Hdestroy & Hheap3 & Hroom3).
  { destruct k, xs; (by left) || (by right). }
  exists w1, w2, w3.
  split; [exact Hset|]. split; [exact Hcalls|]. split; [exact Hdestroy|].
  split; [reflexivity|]. split.
  - rewrite Hroom3, Hroom2. subst w1. cbn. by destruct k, xs.
  - rewrite Hheap3. apply lookup_delete_eq.
Qed.

Lemma callback_life_leaves_nothing_behind_witness :
  ∃ w1 w2 w3,
    set_callback PictureCaptured 4096 (Some (LocalRef 7)) sample_world
    = Returned () w1
    ∧ for_each (callback_call PictureCaptured (w_brk sample_world)) [10; 11] w1
      = Returned () w2
    ∧ callback_destroy PictureCaptured (w_brk sample_world) w2 = Returned () w3
    ∧ S (w_global_room w1) = w_global_room sample_world
    ∧ w_global_room w3 = w_global_room sample_world
    ∧ w_heap w3 !! w_brk sample_world = None.
Proof.
  apply (callback_life_leaves_nothing_behind PictureCaptured 4096 sample_proxy
           (LocalRef 7) [10; 11] sample_world).
  - reflexivity.
  - reflexivity.
  - reflexivity.
  - cbn. lia.
Defined.

(** What the calls of a picture lambda do to the heap. *)
Lemma picture_calls_heap (a : positive) (vm : JavaVM) (ref : jobject)
    (pictures : list Z) (w : World) :
  w_heap w !! a = Some (JGlobalRefHolder_obj (Some vm) ref) →
  w_GetEnv w = JNI_OK →
  (a < w_brk w)%positive →
  ∃ w',
    for_each (PictureCapturedCallback_call a) pictures w = Returned () w'
    ∧ w_GetEnv w' = JNI_OK
    ∧ w_brk w' = Nat.iter (length pictures) Pos.succ (w_brk w)
    ∧ (∀ b, (b < w_brk w)%positive → w_heap w' !! b = w_heap w !! b)
    ∧ (∀ (i : nat) picture, pictures !! i = Some picture →
         w_heap w' !! Nat.iter i Pos.succ (w_brk w) = Some (Picture_obj picture)).
Proof.
  revert w. induction pictures as [|picture pictures IH]; intros w Ha Hok Hbrk.
  - exists w. by repeat split.
  - cbn [for_each].
    erewrite bind_returned by (by apply (PictureCapturedCallback_call_run a vm ref)).
    edestruct IH as (w' & Hrun & Hok' & Hbrk' & Hbelow & Hpictures); cycle 3.
    { exists w'. split; [exact Hrun|]. split; [exact Hok'|].
      cbn in Hbrk', Hbelow, Hpictures. split; [|split].
      - rewrite Hbrk'. cbn [length]. rewrite Nat.iter_succ_r.
        by rewrite Pos.add_1_r.
      - intros b Hb. rewrite Hbelow by lia. apply lookup_insert_ne. lia.
      - intros [|i] p Hi.
        + injection Hi as ->. cbn. rewrite Hbelow by lia. apply lookup_insert_eq.
        + rewrite Nat.iter_succ_r, <- Pos.add_1_r. by apply Hpictures. }
    + cbn. rewrite lookup_insert_ne by lia. exact Ha.
    + exact Hok.
    + cbn. lia.
Qed.

(** X9. Every call of the picture lambda allocates one [Picture] for the
    captured picture, at the next free address, and this file never frees
    it: the pictures are still on the heap after the lambda and its holder
    are destroyed, and no older object was touched. *)
Theorem picture_callback_hands_over_its_pictures
    (a : positive) (vm : JavaVM) (r : jref) (pictures : list Z) (w : World) :
  w_heap w !! a = Some (JGlobalRefHolder_obj (Some vm) (Some r)) →
  w_GetEnv w = JNI_OK →
  (a < w_brk w)%positive →
  ∃ w1 w2,
    for_each (callback_call PictureCaptured a) pictures w = Returned () w1
    ∧ callback_destroy PictureCaptured a w1 = Returned () w2
    ∧ w_brk w2 = Nat.iter (length pictures) Pos.succ (w_brk w)
    ∧ (∀ (i : nat) picture, pictures !! i = Some picture →
         w_heap w2 !! Nat.iter i Pos.succ (w_brk w) = Some (Picture_obj picture))
    ∧ (∀ b, (b < w_brk w)%positive → b ≠ a → w_heap w2 !! b = w_heap w !! b)
    ∧ w_heap w2 !! a = None.
Proof.
  intros Ha Hok Hbrk.
  destruct (picture_calls_heap a vm (Some r) pictures w Ha Hok Hbrk)
    as (w1 & Hcalls & Hok1 & Hbrk1 & Hbelow & Hpictures).
  assert (Ha1 : w_heap w1 !! a
                = Some (wrapper_obj PictureCaptured (Some vm) (Some r))).
  { by rewrite Hbelow. }
  destruct (callback_destroy_holding PictureCaptured a vm r w1 Ha1 Hok1)
    as (w2 & Hdestroy & _ & Hgone).
  assert (Hfresh : ∀ i : nat, Nat.iter i Pos.succ (w_brk w) ≠ a).
  { intros i.
    assert (w_brk w ≤ Nat.iter i Pos.succ (w_brk w))%positive as Hge.
    { clear. induction i as [|i IH]; [cbn; lia|].
      rewrite Nat.iter_succ. lia. }
    lia. }
  pose proof Hdestroy as Hworld.
  cbn [callback_destroy] in Hworld.
  unfold delete_JGlobalRefHolder, JGlobalRefHolder_dtor, DeleteGlobalRef,
    load, getenv, GetEnv in Hworld.
  cbn [wrapper_obj] in Ha1. run. rewrite Ha1 in Hworld. run.
  rewrite bool_decide_eq_false_2 in Hworld by (intros Hne; by apply Hne).
  injection Hworld as <-.
  exists w1. eexists. split; [exact Hcalls|]. split; [exact Hdestroy|].
  cbn. split; [exact Hbrk1|]. rewrite delete_insert_eq. split; [|split].
  - intros i picture Hi. rewrite lookup_delete_ne.
    + by apply Hpictures.
    + intros Heq. by apply (Hfresh i).
  - intros b Hb Hne. rewrite lookup_delete_ne by done. by apply Hbelow.
  - apply lookup_delete_eq.
Qed.

Lemma picture_callback_hands_over_its_pictures_witness :
  ∃ w1 w2,
    for_each (callback_call PictureCaptured 1) [10; 11] holder_world
    = Returned () w1
    ∧ callback_destroy PictureCaptured 1 w1 = Returned () w2
    ∧ w_brk w2 = Nat.iter (length [10; 11]) Pos.succ (w_brk holder_world)
    ∧ (∀ (i : nat) picture, [10; 11] !! i = Some picture →
         w_heap w2 !! Nat.iter i Pos.succ (w_brk holder_world)
         = Some (Picture_obj picture))
    ∧ (∀ b, (b < w_brk holder_world)%positive → b ≠ 1%positive →
         w_heap w2 !! b = w_heap holder_world !! b)
    ∧ w_heap w2 !! 1%positive = None.
Proof.
  apply (picture_callback_hands_over_its_pictures 1 TheVM (GlobalRef 1 7)
           [10; 11] holder_world).
  - reflexivity.
  - reflexivity.
  - cbn. lia.
Defined.

(** ** String buffers *)

(** X10. [nOverrideProperty] leaves no buffer behind.  [ReleaseStringUTFChars]
    frees the buffer it is handed, whichever string is named with it: the
    two buffers the function obtains are both freed before it returns, so
    the native heap is as it was before the call. *)
Theorem overrideProperty_frees_its_buffers (name value : jstring) (w : World) :
  w_heap w !! w_brk w = None →
  w_heap w !! (w_brk w + 1)%positive = None →
  ∃ w',
    android_view_ThreadedRenderer_overrideProperty name value w = Returned () w'
    ∧ w_heap w' = w_heap w
    ∧ count is_GetStringUTFChars (emitted w w') = 2%nat
    ∧ count is_ReleaseStringUTFChars (emitted w w') = 2%nat.
Proof.
  intros Hfree1 Hfree2.
  unfold android_view_ThreadedRenderer_overrideProperty,
    GetStringUTFChars, ReleaseStringUTFChars, load.
  run. rewrite lookup_insert_ne by lia. rewrite lookup_insert_eq.
  run. rewrite lookup_delete_ne by lia. rewrite lookup_insert_eq.
  run. eexists. split; [reflexivity|]. cbn. split.
  - apply map_eq. intros i.
    destruct (decide (i = (w_brk w + 1)%positive)) as [->|Hne1].
    { by rewrite lookup_delete_eq. }
    rewrite lookup_delete_ne by done.
    destruct (decide (i = w_brk w)) as [->|Hne2].
    { by rewrite lookup_delete_eq. }
    rewrite lookup_delete_ne by done.
    by rewrite !lookup_insert_ne by done.
  - unfold emitted. cbn. rewrite <- !app_assoc, drop_app_length. by cbn.
Qed.

Lemma overrideProperty_frees_its_buffers_witness :
  ∃ w',
    android_view_ThreadedRenderer_overrideProperty
      (mk_jstring 20 "debug.hwui.profile") (mk_jstring 21 "true") sample_world
    = Returned () w'
    ∧ w_heap w' = w_heap sample_world
    ∧ count is_GetStringUTFChars (emitted sample_world w') = 2%nat
    ∧ count is_ReleaseStringUTFChars (emitted sample_world w') = 2%nat.
Proof.
  apply (overrideProperty_frees_its_buffers
           (mk_jstring 20 "debug.hwui.profile") (mk_jstring 21 "true") sample_world).
  - reflexivity.
  - reflexivity.
Defined.

(** X11. [setupShadersDiskCache] releases each path buffer with the string
    it was obtained from, the first one before the second is obtained, and
    leaves the native heap as it was before the call. *)
Theorem setupShadersDiskCache_frees_its_buffers
    (diskCachePath skiaDiskCachePath : jstring) (w : World) :
  w_heap w !! w_brk w = None →
  w_heap w !! (w_brk w + 1)%positive = None →
  ∃ w',
    android_view_ThreadedRenderer_setupShadersDiskCache
      diskCachePath skiaDiskCachePath w = Returned () w'
    ∧ emitted w w'
      = [Ev.GetStringUTFChars diskCachePath (w_brk w);
         Ev.egl_set_cache_filename (w_brk w);
         Ev.ReleaseStringUTFChars diskCachePath (w_brk w);
         Ev.GetStringUTFChars skiaDiskCachePath (w_brk w + 1)%positive;
         Ev.ShaderCache_setFilename (w_brk w + 1)%positive;
         Ev.ReleaseStringUTFChars skiaDiskCachePath (w_brk w + 1)%positive]
    ∧ releases_paired (emitted w w')
    ∧ w_heap w' = w_heap w.
Proof.
  intros Hfree1 Hfree2.
  unfold android_view_ThreadedRenderer_setupShadersDiskCache,
    GetStringUTFChars, ReleaseStringUTFChars, load.
  run. rewrite lookup_insert_eq.
  run. rewrite lookup_insert_eq.
  run. eexists. split; [reflexivity|].
  unfold emitted. cbn [w_trace]. rewrite <- !app_assoc, drop_app_length.
  split; [reflexivity|]. split.
  - intros s chars Hin. apply list_elem_of_In in Hin. apply list_elem_of_In.
    cbn in *.
    destruct Hin as [Heq|[Heq|[Heq|[Heq|[Heq|[Heq|[]]]]]]];
      try discriminate Heq; injection Heq as -> ->; tauto.
  - cbn. apply map_eq. intros i.
    destruct (decide (i = (w_brk w + 1)%positive)) as [->|Hne1].
    { by rewrite lookup_delete_eq. }
    rewrite lookup_delete_ne, lookup_insert_ne by done.
    destruct (decide (i = w_brk w)) as [->|Hne2].
    { by rewrite lookup_delete_eq. }
    by rewrite lookup_delete_ne, lookup_insert_ne by done.
Qed.

Lemma setupShadersDiskCache_frees_its_buffers_witness :
  ∃ w',
    android_view_ThreadedRenderer_setupShadersDiskCache
      (mk_jstring 20 "/data/cache") (mk_jstring 21 "/data/skia") sample_world
    = Returned () w'
    ∧ emitted sample_world w'
      = [Ev.GetStringUTFChars (mk_jstring 20 "/data/cache") (w_brk sample_world);
         Ev.egl_set_cache_filename (w_brk sample_world);
         Ev.ReleaseStringUTFChars (mk_jstring 20 "/data/cache") (w_brk sample_world);
         Ev.GetStringUTFChars (mk_jstring 21 "/data/skia")
           (w_brk sample_world + 1)%positive;
         Ev.ShaderCache_setFilename (w_brk sample_world + 1)%positive;
         Ev.ReleaseStringUTFChars (mk_jstring 21 "/data/skia")
           (w_brk sample_world + 1)%positive]
    ∧ releases_paired (emitted sample_world w')
    ∧ w_heap w' = w_heap sample_world.
Proof.
  apply (setupShadersDiskCache_frees_its_buffers
           (mk_jstring 20 "/data/cache") (mk_jstring 21 "/data/skia") sample_world).
  - reflexivity.
  - reflexivity.
Defined.

(** ** More on nCreateHardwareBitmap *)

(** X12. A snapshot with valid dimensions asks the consumer for a buffer
    exactly once, and gives the buffer item back exactly once when the
    consumer delivered one, also when the graphic buffer in it is null;
    when [acquireBuffer] fails nothing is given back. *)
Theorem createHardwareBitmap_releases_what_it_acquired `{Libhwui}
    (renderNodePtr jwidth jheight : Z) (w : World) :
  0 < jwidth → 0 < jheight →
  ∃ result w',
    android_view_ThreadedRenderer_createHardwareBitmapFromRenderNode
      renderNodePtr jwidth jheight w = Returned result w'
    ∧ count is_acquireBuffer (emitted w w') = 1%nat
    ∧ count is_releaseBuffer (emitted w w')
      = if bool_decide ((w_acquireBuffer w).1 = OK) then 1%nat else 0%nat.
Proof.
  intros Hw Hh. rewrite createHardwareBitmap_run by done.
  case_bool_decide as Herr.
  - eexists _, _. split; [reflexivity|].
    erewrite emitted_app by reflexivity.
    rewrite bool_decide_eq_false_2 by done. by rewrite !count_app.
  - destruct (decide ((w_acquireBuffer w).1 = OK)) as [Hok|]; [|done].
    rewrite bool_decide_eq_true_2 by done.
    destruct (mGraphicBuffer (w_acquireBuffer w).2) as [buffer|].
    + eexists _, _. split; [reflexivity|].
      erewrite emitted_app by reflexivity. rewrite !count_app.
      by case_bool_decide.
    + eexists _, _. split; [reflexivity|].
      erewrite emitted_app by reflexivity. by rewrite !count_app.
Qed.

Lemma createHardwareBitmap_releases_what_it_acquired_witness :
  ∃ result w',
    android_view_ThreadedRenderer_createHardwareBitmapFromRenderNode
      (H := sample_hwui) 7 2 2 sample_world = Returned result w'
    ∧ count is_acquireBuffer (emitted sample_world w') = 1%nat
    ∧ count is_releaseBuffer (emitted sample_world w')
      = if bool_decide ((w_acquireBuffer sample_world).1 = OK)
        then 1%nat else 0%nat.
Proof.
  apply (createHardwareBitmap_releases_what_it_acquired (H := sample_hwui)
           7 2 2 sample_world); lia.
Defined.

(** X13. A snapshot with valid dimensions renders through a proxy of its
    own: it makes one [RenderProxy] on the node, draws one frame with it and
    destroys it, and only then asks the consumer for the buffer, whatever
    the outcome.  Nothing of the process changes but the trace: no live
    proxy, no reference and no heap object is touched. *)
Theorem createHardwareBitmap_uses_a_temporary_proxy `{Libhwui}
    (renderNodePtr jwidth jheight : Z) (w : World) :
  0 < jwidth → 0 < jheight →
  ∃ result w' before between after,
    android_view_ThreadedRenderer_createHardwareBitmapFromRenderNode
      renderNodePtr jwidth jheight w = Returned result w'
    ∧ emitted w w'
      = before ++ [Ev.new_RenderProxy true renderNodePtr] ++ between
          ++ [Ev.syncAndDrawFrame; Ev.delete_RenderProxy;
              Ev.acquireBuffer (w_acquireBuffer w).1] ++ after
    ∧ count is_temporary_proxy (before ++ between ++ after) = 0%nat
    ∧ w' = set_trace (w_trace w') w.
Proof.
  intros Hw Hh. rewrite createHardwareBitmap_run by done.
  unfold snapshot_prefix.
  set (before := [Ev.createBufferQueue; Ev.setMaxBufferCount 2;
                  Ev.new_BufferItemConsumer
                    [GRALLOC_USAGE_HW_TEXTURE; GRALLOC_USAGE_SW_READ_NEVER;
                     GRALLOC_USAGE_SW_WRITE_NEVER];
                  Ev.setDefaultBufferSize (to_uint32 jwidth) (to_uint32 jheight);
                  Ev.new_Surface]).
  set (between := [Ev.setSwapBehavior kSwap_discardBuffer; Ev.setSurface;
                   Ev.setLightAlpha 0 0; Ev.setLightGeometry 0 0 0 0;
                   Ev.setVsync (w_systemTime w) (w_systemTime w);
                   Ev.addFlag SurfaceCanvas]).
  case_bool_decide as Herr.
  - eexists _, _, before, between, _. split; [reflexivity|].
    erewrite emitted_app by reflexivity.
    split; [reflexivity|]. by split.
  - destruct (mGraphicBuffer (w_acquireBuffer w).2) as [buffer|].
    + eexists _, _, before, between, _. split; [reflexivity|].
      erewrite emitted_app by reflexivity.
      split; [reflexivity|]. split; [|done].
      rewrite !count_app. by case_bool_decide.
    + eexists _, _, before, between, _. split; [reflexivity|].
      erewrite emitted_app by reflexivity.
      split; [reflexivity|]. by split.
Qed.

Lemma createHardwareBitmap_uses_a_temporary_proxy_witness :
  ∃ result w' before between after,
    android_view_ThreadedRenderer_createHardwareBitmapFromRenderNode
      (H := sample_hwui) 7 2 2 sample_world = Returned result w'
    ∧ emitted sample_world w'
      = before ++ [Ev.new_RenderProxy true 7] ++ between
          ++ [Ev.syncAndDrawFrame; Ev.delete_RenderProxy;
              Ev.acquireBuffer (w_acquireBuffer sample_world).1] ++ after
    ∧ count is_temporary_proxy (before ++ between ++ after) = 0%nat
    ∧ w' = set_trace (w_trace w') sample_world.
Proof.
  apply (createHardwareBitmap_uses_a_temporary_proxy (H := sample_hwui)
           7 2 2 sample_world); lia.
Defined.

(** X14. When the consumer delivers a buffer of exactly the requested
    size, the snapshot returns a premultiplied bitmap on that buffer, with
    the requested width and height and the colour type of the buffer's
    pixel format, and logs no warning. *)
Theorem createHardwareBitmap_of_requested_size `{Libhwui}
    (renderNodePtr jwidth jheight : Z) (buffer : GraphicBuffer) (ds : Z)
    (w : World) :
  0 < jwidth < 2 ^ 31 → 0 < jheight < 2 ^ 31 →
  w_acquireBuffer w = (OK, mk_BufferItem (Some buffer) ds) →
  getWidth buffer = jwidth → getHeight buffer = jheight →
  ∃ jb w',
    android_view_ThreadedRenderer_createHardwareBitmapFromRenderNode
      renderNodePtr jwidth jheight w = Returned (Some jb) w'
    ∧ bm_buffer (jb_native jb) = buffer
    ∧ getWidth (bm_buffer (jb_native jb)) = jwidth
    ∧ getHeight (bm_buffer (jb_native jb)) = jheight
    ∧ bm_colorType (jb_native jb) = PixelFormatToColorType (getPixelFormat buffer)
    ∧ jb_flags jb = kBitmapCreateFlag_Premultiplied
    ∧ count is_ALOGW (emitted w w') = 0%nat.
Proof.
  intros Hw Hh Hacq Hbw Hbh. rewrite createHardwareBitmap_run by lia.
  rewrite !to_uint32_jint by done. rewrite Hacq. cbn [fst snd mGraphicBuffer].
  rewrite bool_decide_eq_false_2 by (intros Hne; by apply Hne).
  rewrite bool_decide_eq_false_2 by lia.
  eexists _, _. split; [reflexivity|].
  erewrite emitted_app by reflexivity. by cbn.
Qed.

Lemma createHardwareBitmap_of_requested_size_witness :
  ∃ jb w',
    android_view_ThreadedRenderer_createHardwareBitmapFromRenderNode
      (H := sample_hwui) 7 2 2 sample_world = Returned (Some jb) w'
    ∧ bm_buffer (jb_native jb) = mk_GraphicBuffer 2 2 1
    ∧ getWidth (bm_buffer (jb_native jb)) = 2
    ∧ getHeight (bm_buffer (jb_native jb)) = 2
    ∧ bm_colorType (jb_native jb)
      = PixelFormatToColorType (Libhwui := sample_hwui)
          (getPixelFormat (mk_GraphicBuffer 2 2 1))
    ∧ jb_flags jb = kBitmapCreateFlag_Premultiplied
    ∧ count is_ALOGW (emitted sample_world w') = 0%nat.
Proof.
  apply (createHardwareBitmap_of_requested_size (H := sample_hwui)
           7 2 2 (mk_GraphicBuffer 2 2 1) 0 sample_world).
  - lia.
  - lia.
  - reflexivity.
  - reflexivity.
  - reflexivity.
Defined.

(** ** Registration and the render thread's start hook *)

Lemma bind_returned_inv {A B} (c : M A) (f : A → M B) w b w' :
  (c ≫= f) w = Returned b w' →
  ∃ a w1, c w = Returned a w1 ∧ f a w1 = Returned b w'.
Proof.
  unfold mbind, M_bind. destruct (c w) as [a w1|msg w1|w1]; [|done|done].
  intros Hf. by exists a, w1.
Qed.

Lemma keeps_mJvm_bind {A B} (c : M A) (f : A → M B) :
  keeps_mJvm c → (∀ a, keeps_mJvm (f a)) → keeps_mJvm (c ≫= f).
Proof.
  intros Hc Hf w b w' Hrun.
  apply bind_returned_inv in Hrun as (a & w1 & Hc1 & Hf1).
  rewrite (Hf a w1 b w' Hf1). by apply (Hc w a w1).
Qed.

Lemma keeps_mJvm_mret {A} (a : A) : keeps_mJvm (mret a).
Proof. intros w b w' Hrun. xrun. congruence. Qed.

Lemma keeps_mJvm_NewGlobalRef (obj : jobject) : keeps_mJvm (NewGlobalRef obj).
Proof.
  intros w ref w' Hrun. unfold NewGlobalRef in Hrun.
  destruct obj as [r|]; [|xrun; congruence].
  xrun.
  match type of Hrun with
  | context [match ?room with O => _ | S _ => _ end] => destruct room
  end; injection Hrun as _ <-; reflexivity.
Qed.

(** What the registration leaves in [mJvm]: the VM when [GetJavaVM]
    succeeded, and what was there before when it failed. *)
Lemma register_mJvm `{CoreJni} (w w1 : World) (result : Z * Globals) :
  CoreJni_keeps_mJvm →
  register_android_view_ThreadedRenderer w = Returned result w1 →
  w_mJvm w1
  = if bool_decide (w_GetJavaVM w = JNI_OK) then Some TheVM else w_mJvm w.
Proof.
  intros (Hhook & Hfind & Hstatic & Hmethod & Hregister) Hrun.
  unfold register_android_view_ThreadedRenderer in Hrun.
  apply bind_returned_inv in Hrun as (mJvm & wa & Hgets & Hrun).
  unfold gets in Hgets. injection Hgets as <- <-.
  apply bind_returned_inv in Hrun as (r & wb & HGetJavaVM & Hrun).
  unfold GetJavaVM, gets, mbind, M_bind, mret, M_ret in HGetJavaVM.
  injection HGetJavaVM as <- <-.
  apply bind_returned_inv in Hrun as ([] & wc & Hset & Hrun).
  unfold modify in Hset. injection Hset as <-.
  eapply (keeps_mJvm_bind _ _ Hhook) in Hrun; [exact Hrun|].
  intros []. apply keeps_mJvm_bind; [apply Hfind|]. intros hardwareRenderer.
  apply keeps_mJvm_bind; [apply keeps_mJvm_NewGlobalRef|]. intros clazz.
  apply keeps_mJvm_bind; [apply Hstatic|]. intros invoke.
  apply keeps_mJvm_bind; [apply Hfind|]. intros frameCallbackClass.
  apply keeps_mJvm_bind; [apply Hmethod|]. intros draw.
  apply keeps_mJvm_bind; [apply Hfind|]. intros frameCompleteClass.
  apply keeps_mJvm_bind; [apply Hmethod|]. intros complete.
  apply keeps_mJvm_bind; [apply Hregister|]. intros result'.
  apply keeps_mJvm_mret.
Qed.

(** X15. The registration does not look at the status of [GetJavaVM].  In a
    process whose [mJvm] is still null, a registration that returns has
    stored the VM exactly when [GetJavaVM] succeeded: the start hook of the
    render thread then attaches the thread as a daemon, with JNI version 1.4
    and the thread's name; when [GetJavaVM] failed the registration returns
    all the same and the hook ends in [LOG_ALWAYS_FATAL]. *)
Theorem start_hook_after_registration `{CoreJni}
    (name : string) (w w1 : World) (result : Z * Globals) :
  CoreJni_keeps_mJvm →
  w_mJvm w = None →
  register_android_view_ThreadedRenderer w = Returned result w1 →
  (w_GetJavaVM w = JNI_OK →
   attachRenderThreadToJvm name w1
   = Returned ()
       (set_trace (w_trace w1 ++ [Ev.AttachCurrentThreadAsDaemon JNI_VERSION_1_4 name])
          w1))
  ∧ (w_GetJavaVM w ≠ JNI_OK →
     attachRenderThreadToJvm name w1 = Fatal "No jvm but we set the hook??" w1).
Proof.
  intros Hkeeps Hnull Hrun.
  pose proof (register_mJvm w w1 result Hkeeps Hrun) as HmJvm.
  rewrite Hnull in HmJvm. split; intros Hvm.
  - rewrite bool_decide_eq_true_2 in HmJvm by done.
    by apply (attachRenderThreadToJvm_attaches name TheVM).
  - rewrite bool_decide_eq_false_2 in HmJvm by done.
    by apply attachRenderThreadToJvm_fatal.
Qed.

Lemma sample_core_jni_keeps_mJvm : CoreJni_keeps_mJvm (H := sample_core_jni).
Proof.
  unfold CoreJni_keeps_mJvm. cbn.
  split; [|split; [|split; [|split]]]; intros; apply keeps_mJvm_mret.
Qed.

Lemma start_hook_after_registration_witness :
  ∃ result w1,
    register_android_view_ThreadedRenderer (H := sample_core_jni)
      unregistered_world = Returned result w1
    ∧ attachRenderThreadToJvm "RenderThread" w1
      = Returned ()
          (set_trace (w_trace w1 ++ [Ev.AttachCurrentThreadAsDaemon
                                       JNI_VERSION_1_4 "RenderThread"])
             w1).
Proof.
  eexists _, _. split.
  - vm_compute. reflexivity.
  - eapply (proj1 (start_hook_after_registration (H := sample_core_jni)
                     "RenderThread" unregistered_world _ _
                     sample_core_jni_keeps_mJvm eq_refl eq_refl)).
    reflexivity.
Defined.

(** ** JvmErrorReporter *)


